(** * Announcements router of the High School Management System API

    A shallow embedding of [src/backend/routers/announcements.py]: the five
    FastAPI handlers [get_active_announcements], [get_all_announcements],
    [create_announcement], [update_announcement] and [delete_announcement],
    together with the part of the document store (pymongo collections) and
    of the Python runtime the handlers rely on.

    Layout:
    - [Driver]: what the handlers import from outside the repository
      ([bson.ObjectId], [datetime.fromisoformat]);
    - [Mongo]: documents, queries, sorting and the collection operations the
      handlers call ([find], [find_one], [insert_one], [update_one],
      [delete_one]);
    - [Handler]: the state-and-exception monad the handlers run in;
    - the handlers themselves, line by line;
    - the vocabulary of the specification and a concrete driver;
    - the properties, and the handlers run on a concrete store. *)

From Stdlib Require Import String Ascii List Sorting.Sorted ZArith Lia.
From stdpp Require Import base option list gmap strings.

Local Open Scope string_scope.
Local Open Scope list_scope.

(** ** Values and Python dictionaries *)

(** The values the handlers read and write in a document body: every field
    they set is a Python [str] or [None]. *)
Inductive value : Type :=
  | VNull
  | VStr (s : string).

#[global] Instance value_eq_dec : EqDecision value.
Proof. solve_decision. Defined.

(** A Python [dict] with string keys: a JSON object, a [$set] payload, the
    fields of a stored document. *)
Abbreviation dict := (gmap string value).

(** [Optional[str]] as a stored value: [None] is BSON null. *)
Definition of_optional (o : option string) : value :=
  match o with
  | None => VNull
  | Some s => VStr s
  end.

(** Truthiness of an [Optional[str]], as in [if start_date:]. [None] and the
    empty string are falsy. *)
Definition truthy (o : option string) : bool :=
  match o with
  | None => false
  | Some s => negb (String.eqb s "")
  end.

(** [s.replace('Z', '+00:00')]: every occurrence of the character is
    replaced, left to right. *)
Fixpoint replace_Z (s : string) : string :=
  match s with
  | EmptyString => EmptyString
  | String c rest =>
      if Ascii.eqb c "Z"%char
      then "+00:00" ++ replace_Z rest
      else String c (replace_Z rest)
  end.

(** The string holds no ['Z']. *)
Fixpoint Z_free (s : string) : bool :=
  match s with
  | EmptyString => true
  | String c rest => negb (Ascii.eqb c "Z"%char) && Z_free rest
  end.

(** ** Timestamps as [isoformat()] prints them

    [datetime.utcnow().isoformat()] prints [YYYY-MM-DDTHH:MM:SS], followed by
    a fraction when the microseconds are not zero. *)

Definition is_digit (c : ascii) : bool :=
  let n := N_of_ascii c in (48 <=? n)%N && (n <=? 57)%N.

(** [shape pat s]: [s] has the length of [pat], a digit wherever [pat] has
    ['d'] and the character of [pat] elsewhere. *)
Fixpoint shape (pat s : string) : bool :=
  match pat, s with
  | EmptyString, EmptyString => true
  | String p pat', String c s' =>
      (if Ascii.eqb p "d"%char then is_digit c else Ascii.eqb p c)
      && shape pat' s'
  | _, _ => false
  end.

Fixpoint count_digits (s : string) : nat :=
  match s with
  | EmptyString => 0
  | String c rest => if is_digit c then S (count_digits rest) else count_digits rest
  end.

(** The number the digits of [s] spell, separators skipped: a stamp
    [YYYY-MM-DDTHH:MM:SS] reads as [YYYYMMDDHHMMSS], which grows with time. *)
Fixpoint stamp_number (s : string) : N :=
  match s with
  | EmptyString => 0
  | String c rest =>
      if is_digit c
      then ((N_of_ascii c - 48) * 10 ^ N.of_nat (count_digits rest)
            + stamp_number rest)%N
      else stamp_number rest
  end.

(** ** The instant a timestamp denotes

    What an ISO-8601 timestamp means, for the forms
    [YYYY-MM-DDTHH:MM:SS], optionally followed by a fraction of six digits,
    optionally followed by [Z] or an offset [+HH:MM] / [-HH:MM]. A stamp
    without designator is read as UTC, which is what [utcnow()] prints. The
    instant is counted in microseconds from 1970-01-01T00:00:00Z. *)

(** The number a string of digits spells. *)
Fixpoint number (s : string) (acc : Z) : Z :=
  match s with
  | EmptyString => acc
  | String c rest => number rest (acc * 10 + (Z.of_N (N_of_ascii c) - 48))%Z
  end.

(** The number spelt by the [n] characters of [s] from offset [i]. *)
Definition field (s : string) (i n : nat) : Z :=
  number (String.substring i n s) 0.

(** Days from 1970-01-01 to the given day of the proleptic Gregorian
    calendar. *)
Definition days_from_civil (y m d : Z) : Z :=
  let y' := if (m <=? 2)%Z then (y - 1)%Z else y in
  let era := (y' / 400)%Z in
  let yoe := (y' - era * 400)%Z in
  let mp := ((m + 9) mod 12)%Z in
  let doy := ((153 * mp + 2) / 5 + d - 1)%Z in
  let doe := (yoe * 365 + yoe / 4 - yoe / 100 + doy)%Z in
  (era * 146097 + doe - 719468)%Z.

(** The days of month [m] in year [y]. *)
Definition days_in_month (y m : Z) : Z :=
  if (m =? 2)%Z
  then if ((y mod 4 =? 0) && negb (y mod 100 =? 0) || (y mod 400 =? 0))%Z
       then 29%Z else 28%Z
  else if ((m =? 4) || (m =? 6) || (m =? 9) || (m =? 11))%Z then 30%Z
  else 31%Z.

(** The fields at the head of [s] name a day and a time of day. *)
Definition fields_in_range (s : string) : bool :=
  ((1 <=? field s 0 4) && (1 <=? field s 5 2) && (field s 5 2 <=? 12)
   && (1 <=? field s 8 2)
   && (field s 8 2 <=? days_in_month (field s 0 4) (field s 5 2))
   && (field s 11 2 <=? 23) && (field s 14 2 <=? 59) && (field s 17 2 <=? 59))%Z.

(** Seconds east of UTC that the designator [z] stands for. *)
Definition utc_offset (z : string) : option Z :=
  if String.eqb z "" || String.eqb z "Z" then Some 0%Z
  else if (shape "+dd:dd" z || shape "-dd:dd" z)
          && (field z 1 2 <=? 23)%Z && (field z 4 2 <=? 59)%Z
  then
    let east := (field z 1 2 * 3600 + field z 4 2 * 60)%Z in
    Some (if shape "+dd:dd" z then east else (- east)%Z)
  else None.

Definition instant (s : string) : option Z :=
  if shape "dddd-dd-ddTdd:dd:dd" (String.substring 0 19 s)
     && fields_in_range s
  then
    let rest := String.substring 19 (String.length s - 19) s in
    let fraction := shape ".dddddd" (String.substring 0 7 rest) in
    let micros := if fraction then field rest 1 6 else 0%Z in
    let zone :=
      if fraction then String.substring 7 (String.length rest - 7) rest
      else rest in
    match utc_offset zone with
    | Some east =>
        let days := days_from_civil (field s 0 4) (field s 5 2) (field s 8 2) in
        let seconds :=
          (days * 86400 + field s 11 2 * 3600 + field s 14 2 * 60
           + field s 17 2 - east)%Z in
        Some (seconds * 1000000 + micros)%Z
    | None => None
    end
  else None.

(** [t] is no later than [u], as instants. *)
Definition instant_le (t u : string) : Prop :=
  match instant t, instant u with
  | Some a, Some b => (a <= b)%Z
  | _, _ => False
  end.

(** ** What the handlers import from outside the repository *)

(** [bson.ObjectId] and [datetime.fromisoformat] are library code. The
    handlers only depend on whether the calls raise, on equality of object
    ids, and on [str] of an object id (24 hexadecimal digits). *)
Class Driver := {
  oid : Type;
  oid_eq_dec :: EqDecision oid;
  (** [ObjectId(s)]: [None] when the constructor raises [InvalidId]. *)
  ObjectId : string -> option oid;
  (** [str(o)] for an object id. *)
  oid_str : oid -> string;
  oid_str_length : forall o, String.length (oid_str o) = 24;
  (** [datetime.fromisoformat(s)]: [false] when it raises [ValueError]. *)
  fromisoformat : string -> bool
}.

(** ** The document store *)

Module Mongo.

(** A stored document: its [_id] and its other fields. The store assigns
    every document exactly one [_id]. *)
Record document (K : Type) : Type := Doc {
  _id : K;
  body : dict
}.
Arguments Doc {K} _ _.
Arguments _id {K} _.
Arguments body {K} _.

(** A collection in natural (insertion) order. *)
Definition collection (K : Type) : Type := list (document K).

(** *** Queries *)

(** Conditions on one field. *)
Inductive cond : Type :=
  | CEq (v : value)          (* {"f": v}; v = None also matches a missing field *)
  | CGte (s : string)        (* {"f": {"$gte": s}} *)
  | CLte (s : string)        (* {"f": {"$lte": s}} *)
  | CExists (b : bool).      (* {"f": {"$exists": b}} *)

(** A query document: several keys of one dict are a conjunction. *)
#[warnings="-register-all"]
Inductive query : Type :=
  | Field (k : string) (c : cond)
  | Or (qs : list query)
  | And (qs : list query).

(** Comparison operators only match values of the operand's type; strings
    are compared bytewise. *)
Definition cond_matches (c : cond) (field : option value) : bool :=
  match c, field with
  | CEq VNull, None => true
  | CEq v, Some w => bool_decide (v = w)
  | CEq _, None => false
  | CGte s, Some (VStr t) => String.leb s t
  | CGte _, _ => false
  | CLte s, Some (VStr t) => String.leb t s
  | CLte _, _ => false
  | CExists b, Some _ => b
  | CExists b, None => negb b
  end.

Fixpoint matches (q : query) (d : dict) : bool :=
  match q with
  | Field k c => cond_matches c (d !! k)
  | Or qs => existsb (fun q' => matches q' d) qs
  | And qs => forallb (fun q' => matches q' d) qs
  end.

(** *** Sorting *)

(** A missing sort field counts as null; null sorts below every string. *)
Definition sort_key (k : string) (d : dict) : value :=
  default VNull (d !! k).

Definition value_leb (v w : value) : bool :=
  match v, w with
  | VNull, _ => true
  | VStr _, VNull => false
  | VStr s, VStr t => String.leb s t
  end.

(** [desc_insert] and [sort_desc]: [cursor.sort(k, -1)], larger keys
    first. The store does not specify the order of equal keys; here the
    natural order is kept among them. *)
Fixpoint desc_insert {K} (k : string) (d : document K) (l : list (document K))
  : list (document K) :=
  match l with
  | [] => [d]
  | e :: l' =>
      if value_leb (sort_key k (body e)) (sort_key k (body d))
      then d :: l
      else e :: desc_insert k d l'
  end.

Definition sort_desc {K} (k : string) (l : list (document K)) : list (document K) :=
  foldr (desc_insert k) [] l.


(** *** Collection operations *)

(** [coll.find(q)] *)
Definition find {K} (q : query) (c : collection K) : list (document K) :=
  List.filter (fun d => matches q (body d)) c.

(** [coll.find_one({"_id": k})] *)
Definition find_one {K} `{EqDecision K} (k : K) (c : collection K)
  : option (document K) :=
  List.find (fun d => bool_decide (_id d = k)) c.

(** [coll.insert_one(doc)] for a [doc] without [_id]: the driver generates
    the id [fresh]; the store refuses a duplicate key. *)
Definition insert_one {K} `{EqDecision K} (fresh : K) (doc : dict)
    (c : collection K) : option (collection K) :=
  match find_one fresh c with
  | Some _ => None
  | None => Some (c ++ [Doc fresh doc])
  end.

(** [{"$set": upd}] on one document: the listed fields are overwritten, the
    others are kept. *)
Definition set_fields {K} (upd : dict) (d : document K) : document K :=
  Doc (_id d) (upd ∪ body d).

(** [coll.update_one({"_id": k}, {"$set": upd})]: the first match only. *)
Fixpoint update_one {K} `{EqDecision K} (k : K) (upd : dict)
    (c : collection K) : collection K :=
  match c with
  | [] => []
  | d :: c' =>
      if bool_decide (_id d = k)
      then set_fields upd d :: c'
      else d :: update_one k upd c'
  end.

(** [coll.delete_one({"_id": k})]: the remaining collection and
    [deleted_count]. *)
Fixpoint delete_one {K} `{EqDecision K} (k : K) (c : collection K)
  : collection K * nat :=
  match c with
  | [] => ([], 0)
  | d :: c' =>
      if bool_decide (_id d = k)
      then (c', 1)
      else let '(r, n) := delete_one k c' in (d :: r, n)
  end.

(** The store keeps [_id] unique within a collection. *)
Definition unique_ids {K} (c : collection K) : Prop :=
  NoDup (map _id c).

End Mongo.
Import Mongo.

(** ** The monad of the handlers *)

Module Handler.

(** What a handler can raise: [fastapi.HTTPException], or an exception
    nothing catches (the store's duplicate-key error, a [TypeError] on
    subscripting [None]). *)
Inductive exn : Type :=
  | HTTPException (status_code : Z) (detail : string)
  | DuplicateKeyError
  | TypeError.

Inductive result (A : Type) : Type :=
  | Ok (a : A)
  | Raise (e : exn).
Arguments Ok {A} _.
Arguments Raise {A} _.

(** The status the framework answers with: 200 for a return, the code of
    an [HTTPException], 500 for any other exception. *)
Definition status_of {A} (r : result A) : Z :=
  match r with
  | Ok _ => 200
  | Raise (HTTPException status_code _) => status_code
  | Raise _ => 500
  end.

Section WithDriver.
Context `{Driver}.

(** The two collections of [..database]. *)
Record db : Type := Db {
  announcements_collection : collection oid;
  teachers_collection : collection string
}.

(** A computation reads and writes the collections and either returns or
    raises; a raise keeps the writes made before it. *)
Definition M (A : Type) : Type := db -> result A * db.

Definition ret {A} (a : A) : M A := fun s => (Ok a, s).

Definition raise {A} (e : exn) : M A := fun s => (Raise e, s).

Definition bind {A B} (m : M A) (k : A -> M B) : M B :=
  fun s =>
    match m s with
    | (Ok a, s') => k a s'
    | (Raise e, s') => (Raise e, s')
    end.

Definition get_announcements : M (collection oid) :=
  fun s => (Ok (announcements_collection s), s).

Definition put_announcements (c : collection oid) : M unit :=
  fun s => (Ok tt, Db c (teachers_collection s)).

Definition get_teachers : M (collection string) :=
  fun s => (Ok (teachers_collection s), s).

End WithDriver.

End Handler.
Import Handler.

Notation "x <- m ;; k" := (bind m (fun x => k))
  (at level 100, m at next level, right associativity).
Notation "m ;;; k" := (bind m (fun _ => k))
  (at level 100, right associativity).

(** ** The handlers *)

Section Router.
Context `{Driver}.

Definition Unauthorized : exn := HTTPException 401 "Unauthorized".

(** [teacher = teachers_collection.find_one({"_id": username});
    if not teacher: raise HTTPException(401, ...)].
    A document that was found holds at least its [_id], so it is truthy. *)
Definition verify_teacher (username : string) : M unit :=
  teachers <- get_teachers ;;
  match find_one username teachers with
  | None => raise Unauthorized
  | Some _ => ret tt
  end.

(** [try: datetime.fromisoformat(s.replace('Z', '+00:00'))
    except ValueError: raise HTTPException(400, detail)] *)
Definition validate_date (s detail : string) : M unit :=
  if fromisoformat (replace_Z s)
  then ret tt
  else raise (HTTPException 400 detail).

(** [try: obj_id = ObjectId(announcement_id)
    except Exception: raise HTTPException(400, ...)] *)
Definition parse_id (announcement_id : string) : M oid :=
  match ObjectId announcement_id with
  | Some obj_id => ret obj_id
  | None => raise (HTTPException 400 "Invalid announcement ID")
  end.

(** [announcement["id"] = str(announcement["_id"]); del announcement["_id"]] *)
Definition to_json (d : document oid) : dict :=
  delete "_id" (<["id" := VStr (oid_str (_id d))]> (body d)).

(** The query of [get_active_announcements], lines 24-31. *)
Definition active_query (current_time : string) : query :=
  And [ Field "expiration_date" (CGte current_time);
        Or [ Field "start_date" (CExists false);
             Field "start_date" (CEq VNull);
             Field "start_date" (CLte current_time) ] ].

(** [current_time] is [datetime.utcnow().isoformat()]. *)
Definition get_active_announcements (current_time : string) : M (list dict) :=
  coll <- get_announcements ;;
  let announcements := sort_desc "created_at" (find (active_query current_time) coll) in
  ret (map to_json announcements).

Definition get_all_announcements (username : string) : M (list dict) :=
  verify_teacher username ;;;
  coll <- get_announcements ;;
  let announcements := sort_desc "created_at" (find (And []) coll) in
  ret (map to_json announcements).

(** The dict literal of lines 90-97. *)
Definition announcement (current_time title message expiration_date username : string)
    (start_date : option string) : dict :=
  {[ "title" := VStr title;
     "message" := VStr message;
     "start_date" := of_optional start_date;
     "expiration_date" := VStr expiration_date;
     "created_by" := VStr username;
     "created_at" := VStr current_time ]}.

(** The dict literal of lines 145-152. *)
Definition update_data (current_time title message expiration_date username : string)
    (start_date : option string) : dict :=
  {[ "title" := VStr title;
     "message" := VStr message;
     "start_date" := of_optional start_date;
     "expiration_date" := VStr expiration_date;
     "updated_by" := VStr username;
     "updated_at" := VStr current_time ]}.

(** [fresh] is the object id the driver generates for the insert.
    [insert_one] adds [_id] to the dict it is given; lines 100-102 then set
    [id] and drop [_id], which is [to_json] of the stored document. *)
Definition create_announcement (current_time : string) (fresh : oid)
    (title message expiration_date username : string)
    (start_date : option string) : M dict :=
  verify_teacher username ;;;
  validate_date expiration_date "Invalid expiration date format" ;;;
  (if truthy start_date
   then validate_date (default "" start_date) "Invalid start date format"
   else ret tt) ;;;
  let announcement :=
    announcement current_time title message expiration_date username start_date in
  coll <- get_announcements ;;
  match insert_one fresh announcement coll with
  | None => raise DuplicateKeyError
  | Some coll' =>
      put_announcements coll' ;;;
      ret (to_json (Doc fresh announcement))
  end.

(** [if not existing] is the [None] case: a document that was found is
    truthy. The re-read after the write subscripts its result unchecked. *)
Definition update_announcement (current_time : string)
    (announcement_id title message expiration_date username : string)
    (start_date : option string) : M dict :=
  verify_teacher username ;;;
  obj_id <- parse_id announcement_id ;;
  coll <- get_announcements ;;
  match find_one obj_id coll with
  | None => raise (HTTPException 404 "Announcement not found")
  | Some _ =>
      validate_date expiration_date "Invalid expiration date format" ;;;
      (if truthy start_date
       then validate_date (default "" start_date) "Invalid start date format"
       else ret tt) ;;;
      let update_data :=
        update_data current_time title message expiration_date username start_date in
      put_announcements (update_one obj_id update_data coll) ;;;
      coll' <- get_announcements ;;
      match find_one obj_id coll' with
      | None => raise TypeError
      | Some updated => ret (to_json updated)
      end
  end.

Definition delete_announcement (announcement_id username : string) : M dict :=
  verify_teacher username ;;;
  obj_id <- parse_id announcement_id ;;
  coll <- get_announcements ;;
  let '(coll', deleted_count) := delete_one obj_id coll in
  put_announcements coll' ;;;
  if Nat.eqb deleted_count 0
  then raise (HTTPException 404 "Announcement not found")
  else ret {[ "message" := VStr "Announcement deleted successfully" ]}.

End Router.

(** ** Vocabulary of the specification *)

Section Vocabulary.
Context `{Driver}.
Implicit Types (st : db) (username current_time : string).

(** A teacher record exists for [username]. *)
Definition teacher_exists st username : Prop :=
  exists t, In t (teachers_collection st) /\ _id t = username.

(** The order the store puts on timestamp strings, which is the order the
    handlers compare them in: bytewise, [t] at or after [u] when [u <= t].
    It is the order of the strings, not of the instants they denote. *)
Definition at_or_after (t u : string) : Prop := String.leb u t = true.
Definition at_or_before (t u : string) : Prop := String.leb t u = true.
Definition before (t u : string) : Prop := String.ltb t u = true.
Definition after (t u : string) : Prop := String.ltb u t = true.

(** What the query of list-active selects: the expiration date sorts at or
    after the current time and the start date is absent, null, or sorts at
    or before it. *)
Definition in_query_window current_time (a : dict) : Prop :=
  (exists e, a !! "expiration_date" = Some (VStr e) /\ at_or_after e current_time)
  /\ (a !! "start_date" = None
      \/ a !! "start_date" = Some VNull
      \/ exists s, a !! "start_date" = Some (VStr s) /\ at_or_before s current_time).

(** "Active", as the specification has it: the expiration date is at or
    after the current time and the start date is absent, null, or at or
    before the current time, as instants. *)
Definition active current_time (a : dict) : Prop :=
  (exists e, a !! "expiration_date" = Some (VStr e) /\ instant_le current_time e)
  /\ (a !! "start_date" = None
      \/ a !! "start_date" = Some VNull
      \/ exists s, a !! "start_date" = Some (VStr s) /\ instant_le s current_time).



(** The date validation lets [s] through. *)
Definition date_accepted (s : string) : Prop :=
  fromisoformat (replace_Z s) = true.

Definition NotFound : exn := HTTPException 404 "Announcement not found".
Definition InvalidId : exn := HTTPException 400 "Invalid announcement ID".

(** The start date passes: it is falsy and skipped, or it is validated. *)
Definition start_date_passes (start_date : option string) : Prop :=
  truthy start_date = true -> date_accepted (default "" start_date).

(** The confirmation message of delete. *)
Definition deleted : dict :=
  {[ "message" := VStr "Announcement deleted successfully" ]}.

End Vocabulary.

(** The JSON form of an announcement: no raw [_id], and an [id] of 24
    characters. *)
Definition carries_id (r : dict) : Prop :=
  r !! "_id" = None
  /\ exists i, r !! "id" = Some (VStr i) /\ String.length i = 24.

(** ** A concrete driver

    An executable instance of [Driver], used to run the handlers on concrete
    requests. Object ids are 96-bit numbers written as 24 hexadecimal digits.
    The timestamp recogniser covers the profile
    [YYYY-MM-DD], [YYYY-MM-DDTHH:MM:SS] and [YYYY-MM-DDTHH:MM:SS+HH:MM] (days
    up to 28), which [datetime.fromisoformat] accepts; it rejects everything
    else, in particular the empty string and text without digits. *)

Module Sample.

Definition digit (c : ascii) : nat := nat_of_ascii c - 48.

Definition hex_value (c : ascii) : option N :=
  let n := N_of_ascii c in
  if (48 <=? n)%N && (n <=? 57)%N then Some (n - 48)%N
  else if (97 <=? n)%N && (n <=? 102)%N then Some (n - 87)%N
  else if (65 <=? n)%N && (n <=? 70)%N then Some (n - 55)%N
  else None.

Fixpoint parse_hex (s : string) (acc : N) : option N :=
  match s with
  | EmptyString => Some acc
  | String c rest =>
      match hex_value c with
      | Some v => parse_hex rest (acc * 16 + v)%N
      | None => None
      end
  end.

Definition object_id (s : string) : option N :=
  if Nat.eqb (String.length s) 24 then parse_hex s 0%N else None.

Definition hex_digit (n : N) : ascii :=
  if (n <? 10)%N then ascii_of_N (48 + n) else ascii_of_N (87 + n).

Fixpoint to_hex (width : nat) (n : N) (acc : string) : string :=
  match width with
  | O => acc
  | S w => to_hex w (n / 16)%N (String (hex_digit (n mod 16)%N) acc)
  end.

Definition str (o : N) : string := to_hex 24 o "".

Lemma to_hex_length width : forall n acc,
  String.length (to_hex width n acc) = (width + String.length acc)%nat.
Proof.
  induction width as [|w IH]; intros n acc; simpl; [reflexivity|].
  rewrite IH. simpl. lia.
Qed.

Lemma str_length o : String.length (str o) = 24%nat.
Proof. unfold str. rewrite to_hex_length. reflexivity. Qed.

(** The two-digit number at offset [i]. *)
Definition two (s : string) (i : nat) : nat :=
  match String.get i s, String.get (S i) s with
  | Some a, Some b => 10 * digit a + digit b
  | _, _ => 0
  end.

Definition date_ok (s : string) : bool :=
  (1 <=? two s 5)%nat && (two s 5 <=? 12)%nat
  && (1 <=? two s 8)%nat && (two s 8 <=? 28)%nat
  && negb (Nat.eqb (two s 0 + two s 2) 0).

Definition time_ok (s : string) : bool :=
  (two s 11 <=? 23)%nat && (two s 14 <=? 59)%nat && (two s 17 <=? 59)%nat.

Definition offset_ok (s : string) : bool :=
  (two s 20 <=? 23)%nat && (two s 23 <=? 59)%nat.

Definition iso (s : string) : bool :=
  (shape "dddd-dd-dd" s && date_ok s)
  || (shape "dddd-dd-ddTdd:dd:dd" s && date_ok s && time_ok s)
  || (shape "dddd-dd-ddTdd:dd:dd+dd:dd" s && date_ok s && time_ok s
      && offset_ok s).

#[local] Instance driver : Driver := {|
  oid := N;
  ObjectId := object_id;
  oid_str := str;
  oid_str_length := str_length;
  fromisoformat := iso
|}.

(** A store with one teacher and two announcements. *)
Definition teacher1 : document string :=
  Doc "teacher1" {[ "display_name" := VStr "Ms. Rivera" ]}.

Definition exam : document N :=
  Doc 1%N {[ "title" := VStr "Exam";
             "message" := VStr "Final exam Friday";
             "start_date" := VNull;
             "expiration_date" := VStr "2099-01-01T00:00:00Z";
             "created_by" := VStr "teacher1";
             "created_at" := VStr "2026-01-10T08:00:00" ]}.

Definition fair : document N :=
  Doc 2%N {[ "title" := VStr "Science fair";
             "message" := VStr "Gym, 3pm";
             "start_date" := VStr "2026-03-01T00:00:00";
             "expiration_date" := VStr "2026-03-02T00:00:00";
             "created_by" := VStr "teacher1";
             "created_at" := VStr "2026-02-20T09:30:00" ]}.

Definition school : db := Db [exam; fair] [teacher1].

Definition exam_id : string := "000000000000000000000001".

(** A second teacher, for properties about two callers. *)
Definition teacher2 : document string :=
  Doc "teacher2" {[ "display_name" := VStr "Mr. Chen" ]}.

Definition staffroom : db := Db [exam; fair] [teacher1; teacher2].

End Sample.

(** * Properties *)

(** ** The order of the store on strings and values *)

Section Order.

Lemma string_leb_refl s : String.leb s s = true.
Proof.
  destruct (String.leb_total s s); assumption.
Qed.

Lemma string_leb_trans s1 : forall s2 s3,
  String.leb s1 s2 = true -> String.leb s2 s3 = true -> String.leb s1 s3 = true.
Proof.
  unfold String.leb.
  induction s1 as [|a s1 IH]; intros [|b s2] [|c s3]; simpl; try done.
  unfold Ascii.compare.
  destruct (N.compare_spec (N_of_ascii a) (N_of_ascii b)) as [Hab|Hab|Hab];
    destruct (N.compare_spec (N_of_ascii b) (N_of_ascii c)) as [Hbc|Hbc|Hbc];
    destruct (N.compare_spec (N_of_ascii a) (N_of_ascii c)) as [Hac|Hac|Hac];
    try done; try lia.
  apply IH.
Qed.



End Order.

(** ** String order on stamps of one shape

    On stamps of one shape the bytewise order of the store is the order of
    the numbers their digits spell. *)

Lemma N_add_compare_l x y z : (x + y ?= x + z)%N = (y ?= z)%N.
Proof.
  destruct (N.compare_spec y z) as [->|Hlt|Hgt].
  - apply N.compare_refl.
  - apply N.compare_lt_iff. lia.
  - apply N.compare_gt_iff. lia.
Qed.

Lemma stamp_number_bound s : (stamp_number s < 10 ^ N.of_nat (count_digits s))%N.
Proof.
  induction s as [|c s IH]; simpl; [lia|].
  unfold is_digit. destruct (_ && _) eqn:Hc; [|exact IH].
  apply andb_true_iff in Hc as [Hlo Hhi].
  apply N.leb_le in Hlo, Hhi.
  rewrite Nat2N.inj_succ, N.pow_succ_r'. nia.
Qed.

Lemma shape_count_digits pat : forall s t,
  shape pat s = true -> shape pat t = true -> count_digits s = count_digits t.
Proof.
  induction pat as [|p pat IH]; intros [|a s] [|b t]; simpl; try done.
  intros [Ha Hs]%andb_true_iff [Hb Ht]%andb_true_iff.
  rewrite (IH s t Hs Ht).
  destruct (Ascii.eqb p "d").
  - by rewrite Ha, Hb.
  - apply Ascii.eqb_eq in Ha, Hb. by subst.
Qed.

Lemma shape_compare pat : forall s t,
  shape pat s = true -> shape pat t = true ->
  String.compare s t = (stamp_number s ?= stamp_number t)%N.
Proof.
  induction pat as [|p pat IH]; intros [|a s] [|b t]; simpl; try done.
  intros [Ha Hs]%andb_true_iff [Hb Ht]%andb_true_iff.
  pose proof (shape_count_digits _ _ _ Hs Ht) as Hn.
  pose proof (stamp_number_bound s) as Bs.
  pose proof (stamp_number_bound t) as Bt.
  rewrite (IH s t Hs Ht). rewrite <- Hn in *.
  destruct (Ascii.eqb p "d").
  - rewrite Ha, Hb. unfold is_digit in Ha, Hb.
    apply andb_true_iff in Ha as [Ha1 Ha2]. apply andb_true_iff in Hb as [Hb1 Hb2].
    apply N.leb_le in Ha1, Ha2, Hb1, Hb2.
    unfold Ascii.compare.
    set (P := (10 ^ N.of_nat (count_digits s))%N) in *.
    destruct (N.compare_spec (N_of_ascii a) (N_of_ascii b)) as [Hab|Hab|Hab].
    + rewrite Hab. symmetry. apply N_add_compare_l.
    + symmetry. apply N.compare_lt_iff. nia.
    + symmetry. apply N.compare_gt_iff. nia.
  - apply Ascii.eqb_eq in Ha, Hb. subst a b.
    unfold Ascii.compare. rewrite N.compare_refl.
    destruct (is_digit p); [|done].
    symmetry. apply N_add_compare_l.
Qed.

Lemma shape_leb pat s t :
  shape pat s = true -> shape pat t = true ->
  String.leb s t = true <-> (stamp_number s <= stamp_number t)%N.
Proof.
  intros Hs Ht. unfold String.leb. rewrite (shape_compare pat s t Hs Ht).
  unfold N.le. destruct (stamp_number s ?= stamp_number t)%N; split; done.
Qed.

(** Across shapes the order is still bytewise: a stamp that ends in Z sorts
    above the same second printed with a fraction. *)
Example leb_Z_suffix :
  String.leb "2099-01-01T00:00:00.500000" "2099-01-01T00:00:00Z" = true.
Proof. reflexivity. Qed.

(** ** Normalising the Z suffix *)

Lemma replace_Z_app s t :
  replace_Z (s ++ t) = (replace_Z s ++ replace_Z t)%string.
Proof.
  induction s as [|c s IH]; simpl; [done|].
  destruct (Ascii.eqb c "Z"); simpl; by rewrite IH.
Qed.

Lemma replace_Z_free s : Z_free s = true -> replace_Z s = s.
Proof.
  induction s as [|c s IH]; simpl; [done|].
  destruct (Ascii.eqb c "Z"); simpl; [done|]. intros Hs. by rewrite IH.
Qed.

Lemma replace_Z_suffix t :
  Z_free t = true -> replace_Z (t ++ "Z") = (t ++ "+00:00")%string.
Proof. intros Ht. rewrite replace_Z_app, replace_Z_free by done. reflexivity. Qed.

(** ** Sorting *)

Section Sorting.
Context {K : Type}.
Implicit Types (d e : document K) (l : list (document K)).


Lemma In_desc_insert k d l x : In x (desc_insert k d l) <-> x = d \/ In x l.
Proof.
  induction l as [|e l IH]; simpl.
  - intuition.
  - destruct (value_leb _ _); simpl; rewrite ?IH; intuition.
Qed.

Lemma In_sort_desc k l x : In x (sort_desc k l) <-> In x l.
Proof.
  induction l as [|e l IH]; simpl; [reflexivity|].
  rewrite In_desc_insert, IH. intuition.
Qed.



Lemma desc_insert_length k d l : length (desc_insert k d l) = S (length l).
Proof.
  induction l as [|e l IH]; simpl; [reflexivity|].
  destruct (value_leb _ _); simpl; congruence.
Qed.

Lemma sort_desc_length k l : length (sort_desc k l) = length l.
Proof.
  induction l as [|e l IH]; simpl; [reflexivity|].
  rewrite desc_insert_length. congruence.
Qed.

End Sorting.

(** ** The collection operations *)

Section Store.
Context {K : Type} `{EqDecision K}.
Implicit Types (k : K) (d e : document K) (c : collection K).

Lemma find_one_Some k c d :
  find_one k c = Some d ->
  exists c1 c2, c = c1 ++ d :: c2 /\ _id d = k /\ find_one k c1 = None.
Proof.
  unfold find_one. induction c as [|e c IH]; simpl; [done|].
  case_bool_decide as He.
  - intros [= ->]. exists [], c. auto.
  - intros Hd. destruct (IH Hd) as (c1 & c2 & -> & Hk & Hc1).
    exists (e :: c1), c2. simpl. rewrite bool_decide_eq_false_2 by done. auto.
Qed.

Lemma find_one_None k c :
  find_one k c = None <-> forall d, In d c -> _id d <> k.
Proof.
  unfold find_one. induction c as [|e c IH]; simpl.
  - split; [intros _ d []|done].
  - case_bool_decide as He.
    + split; [done|]. intros Hall. destruct (Hall e); auto.
    + rewrite IH. split.
      * intros Hall d [<-|Hd]; auto.
      * intros Hall d Hd. apply Hall. auto.
Qed.

Lemma find_one_In k c d : find_one k c = Some d -> In d c /\ _id d = k.
Proof.
  intros Hd. destruct (find_one_Some _ _ _ Hd) as (c1 & c2 & -> & Hk & _).
  split; [|done]. apply in_or_app. right. left. done.
Qed.

Lemma find_one_is_Some k c :
  is_Some (find_one k c) <-> exists d, In d c /\ _id d = k.
Proof.
  split.
  - intros [d Hd]. exists d. by apply find_one_In.
  - intros (d & Hd & Hk). destruct (find_one k c) eqn:Hf; [done|].
    rewrite find_one_None in Hf. destruct (Hf d Hd Hk).
Qed.

Lemma find_one_app_None k c1 c2 :
  find_one k c1 = None -> find_one k (c1 ++ c2) = find_one k c2.
Proof.
  unfold find_one. induction c1 as [|e c1 IH]; simpl; [done|].
  case_bool_decide; [done|]. exact IH.
Qed.

Lemma find_one_here k d c : _id d = k -> find_one k (d :: c) = Some d.
Proof. intros Hk. unfold find_one. simpl. by rewrite bool_decide_eq_true_2. Qed.

Lemma update_one_app k upd c1 d c2 :
  find_one k c1 = None -> _id d = k ->
  update_one k upd (c1 ++ d :: c2) = c1 ++ set_fields upd d :: c2.
Proof.
  intros Hc1 Hk. induction c1 as [|e c1 IH]; simpl.
  - by rewrite bool_decide_eq_true_2.
  - unfold find_one in Hc1. simpl in Hc1. case_bool_decide; [done|].
    by rewrite IH.
Qed.

Lemma delete_one_app k c1 d c2 :
  find_one k c1 = None -> _id d = k ->
  delete_one k (c1 ++ d :: c2) = (c1 ++ c2, 1).
Proof.
  intros Hc1 Hk. induction c1 as [|e c1 IH]; simpl.
  - by rewrite bool_decide_eq_true_2.
  - unfold find_one in Hc1. simpl in Hc1. case_bool_decide; [done|].
    by rewrite IH.
Qed.

Lemma delete_one_None k c : find_one k c = None -> delete_one k c = (c, 0).
Proof.
  unfold find_one. induction c as [|e c IH]; simpl; [done|].
  case_bool_decide; [done|]. intros Hc. by rewrite IH.
Qed.

Lemma unique_ids_app_inv c1 d c2 :
  unique_ids (c1 ++ d :: c2) ->
  unique_ids (c1 ++ c2) /\ find_one (_id d) (c1 ++ c2) = None.
Proof.
  unfold unique_ids. rewrite !map_app. simpl. intros Hnd.
  apply NoDup_app in Hnd as (Hc1 & Hdisj & Hc2).
  apply NoDup_cons in Hc2 as [Hd Hc2].
  split.
  - apply NoDup_app. repeat split; [done| |done].
    intros x Hx Hx'. apply (Hdisj x Hx). by right.
  - apply find_one_None. intros e He Heq.
    apply in_app_or in He as [He|He].
    + apply (Hdisj (_id d)); [|by left].
      rewrite <- Heq. apply list_elem_of_In, in_map, He.
    + apply Hd. rewrite <- Heq. apply list_elem_of_In, in_map, He.
Qed.

(** [coll.find()] with no filter returns every document. *)
Lemma find_all c : find (And []) c = c.
Proof.
  unfold find. induction c as [|e c IH]; simpl in *; [done|]. by f_equal.
Qed.

Lemma In_find q c d : In d (find q c) <-> In d c /\ matches q (body d) = true.
Proof. unfold find. apply filter_In. Qed.

(** The three writes keep ids unique. *)
Lemma insert_one_unique fresh doc c c' :
  unique_ids c -> insert_one fresh doc c = Some c' -> unique_ids c'.
Proof.
  unfold insert_one, unique_ids. intros Hc.
  destruct (find_one fresh c) eqn:Hf; [done|]. intros [= <-].
  rewrite map_app. simpl. apply NoDup_app. repeat split; [done| |].
  - intros x Hx Hx'. apply list_elem_of_In in Hx'. destruct Hx' as [<-|[]].
    apply list_elem_of_In, in_map_iff in Hx as (e & He & Hin).
    rewrite find_one_None in Hf. by apply (Hf e).
  - apply NoDup_singleton.
Qed.

Lemma update_one_ids k upd c : map _id (update_one k upd c) = map _id c.
Proof.
  induction c as [|e c IH]; simpl; [done|].
  case_bool_decide; simpl; congruence.
Qed.

Lemma update_one_unique k upd c : unique_ids c -> unique_ids (update_one k upd c).
Proof. unfold unique_ids. by rewrite update_one_ids. Qed.

Lemma delete_one_unique k c : unique_ids c -> unique_ids (delete_one k c).1.
Proof.
  intros Hc. destruct (find_one k c) as [d|] eqn:Hf.
  - destruct (find_one_Some _ _ _ Hf) as (c1 & c2 & -> & Hk & Hc1).
    rewrite delete_one_app by done. simpl.
    by apply unique_ids_app_inv in Hc as [Hc _].
  - by rewrite delete_one_None.
Qed.

End Store.

(** ** The handlers *)

Section Claims.
Context `{Driver}.
Implicit Types (st : db) (username current_time : string) (d : document oid).

(** *** Running the shared steps *)

Lemma verify_teacher_known st username :
  teacher_exists st username -> verify_teacher username st = (Ok tt, st).
Proof.
  intros Ht. apply find_one_is_Some in Ht as [t Ht].
  unfold verify_teacher, bind, get_teachers. simpl. by rewrite Ht.
Qed.

Lemma verify_teacher_unknown st username :
  ~ teacher_exists st username ->
  verify_teacher username st = (Raise Unauthorized, st).
Proof.
  intros Ht. unfold verify_teacher, bind, get_teachers. simpl.
  destruct (find_one username (teachers_collection st)) eqn:Hf; [|done].
  destruct Ht. apply find_one_is_Some. eauto.
Qed.

Lemma teacher_exists_dec st username :
  teacher_exists st username \/ ~ teacher_exists st username.
Proof.
  destruct (find_one username (teachers_collection st)) eqn:Hf.
  - left. apply find_one_is_Some. eauto.
  - right. intros Ht. apply find_one_is_Some in Ht as [t Ht]. congruence.
Qed.

Lemma validate_date_accepted s detail st :
  date_accepted s -> validate_date s detail st = (Ok tt, st).
Proof. unfold validate_date, date_accepted. by intros ->. Qed.

Lemma validate_date_rejected s detail st :
  fromisoformat (replace_Z s) = false ->
  validate_date s detail st = (Raise (HTTPException 400 detail), st).
Proof. unfold validate_date. by intros ->. Qed.

Lemma before_not_at_or_after t u : before t u -> ~ at_or_after t u.
Proof.
  unfold before, at_or_after, String.ltb, String.leb.
  rewrite (String.compare_antisym u t).
  destruct (String.compare t u); simpl; done.
Qed.

(** For stamps printed like the current time, "at or after" in the
    store's order is the order of the numbers [YYYYMMDDHHMMSS] they spell. *)
Lemma at_or_after_canonical e current_time :
  shape "dddd-dd-ddTdd:dd:dd" e = true ->
  shape "dddd-dd-ddTdd:dd:dd" current_time = true ->
  at_or_after e current_time <-> (stamp_number current_time <= stamp_number e)%N.
Proof.
  intros He Hnow. unfold at_or_after.
  by apply shape_leb with (pat := "dddd-dd-ddTdd:dd:dd").
Qed.

Lemma to_json_lookup d k :
  k <> "id" -> k <> "_id" -> to_json d !! k = body d !! k.
Proof.
  intros Hid H_id. unfold to_json.
  rewrite lookup_delete_ne by done. by rewrite lookup_insert_ne.
Qed.

Lemma to_json_id d : to_json d !! "id" = Some (VStr (oid_str (_id d))).
Proof.
  unfold to_json. rewrite lookup_delete_ne by done. by rewrite lookup_insert_eq.
Qed.

Lemma oid_str_nonempty (o : oid) : oid_str o <> "".
Proof.
  intros Ho. pose proof (oid_str_length o) as Hl. rewrite Ho in Hl. done.
Qed.

(** *** Listing *)

Lemma matches_active_query current_time (a : dict) :
  matches (active_query current_time) a = true <-> in_query_window current_time a.
Proof.
  unfold in_query_window, at_or_after, at_or_before. simpl.
  rewrite !andb_true_r, orb_false_r.
  destruct (a !! "expiration_date") as [[|e]|] eqn:He;
    destruct (a !! "start_date") as [[|s]|] eqn:Hs; simpl;
    rewrite ?andb_true_iff, ?orb_true_iff.
  all: split;
    [ intros Hm; try done; destruct Hm as [He' Hs']; eauto 10
    | intros [(e' & He' & Hle) Hstart]; simplify_eq; try done;
      destruct Hstart as [?|[?|(s' & ? & ?)]]; simplify_eq; done ].
Qed.

Lemma get_active_announcements_run current_time st :
  get_active_announcements current_time st =
  (Ok (map to_json (sort_desc "created_at"
         (find (active_query current_time) (announcements_collection st)))), st).
Proof. reflexivity. Qed.

Lemma get_all_announcements_run username st :
  teacher_exists st username ->
  get_all_announcements username st =
  (Ok (map to_json (sort_desc "created_at" (announcements_collection st))), st).
Proof.
  intros Ht. unfold get_all_announcements, bind.
  rewrite verify_teacher_known by done. simpl.
  by rewrite find_all.
Qed.


(** *** Creating *)

Lemma start_date_step start_date st :
  start_date_passes start_date ->
  (if truthy start_date
   then validate_date (default "" start_date) "Invalid start date format"
   else ret tt) st = (Ok tt, st).
Proof.
  unfold start_date_passes. destruct (truthy start_date); [|done].
  intros Hs. by apply validate_date_accepted, Hs.
Qed.

Lemma create_announcement_ok current_time fresh title message expiration_date
    username start_date st :
  teacher_exists st username ->
  date_accepted expiration_date ->
  start_date_passes start_date ->
  find_one fresh (announcements_collection st) = None ->
  let a := announcement current_time title message expiration_date username start_date in
  create_announcement current_time fresh title message expiration_date username
    start_date st
  = (Ok (to_json (Doc fresh a)),
     Db (announcements_collection st ++ [Doc fresh a]) (teachers_collection st)).
Proof.
  intros Ht He Hs Hfresh a. unfold create_announcement, bind.
  rewrite verify_teacher_known by done.
  rewrite validate_date_accepted by done.
  rewrite start_date_step by done.
  simpl. unfold insert_one. by rewrite Hfresh.
Qed.

(** A create that returns went through every check. *)
Lemma create_announcement_inv current_time fresh title message expiration_date
    username start_date st r st' :
  create_announcement current_time fresh title message expiration_date username
    start_date st = (Ok r, st') ->
  teacher_exists st username /\ date_accepted expiration_date
  /\ start_date_passes start_date
  /\ find_one fresh (announcements_collection st) = None.
Proof.
  unfold create_announcement, bind.
  destruct (teacher_exists_dec st username) as [Ht|Ht];
    [rewrite verify_teacher_known by done
    |rewrite verify_teacher_unknown by done; done].
  unfold validate_date at 1, date_accepted.
  destruct (fromisoformat (replace_Z expiration_date)) eqn:He; [|done].
  simpl. unfold start_date_passes, date_accepted, validate_date.
  destruct (truthy start_date) eqn:Htr; simpl.
  - destruct (fromisoformat (replace_Z (default "" start_date))) eqn:Hs; [|done].
    simpl. unfold insert_one.
    destruct (find_one fresh (announcements_collection st)); [done|]. auto.
  - unfold insert_one.
    destruct (find_one fresh (announcements_collection st)); [done|].
    intros _. repeat split; done.
Qed.

(** *** Updating *)

Lemma find_one_update_one (o : oid) upd (c : collection oid) old :
  find_one o c = Some old ->
  find_one o (update_one o upd c) = Some (set_fields upd old).
Proof.
  intros Hold. destruct (find_one_Some _ _ _ Hold) as (c1 & c2 & -> & Ho & Hc1).
  rewrite update_one_app by done. rewrite find_one_app_None by done.
  by apply find_one_here.
Qed.

Lemma update_announcement_ok current_time announcement_id title message
    expiration_date username start_date st o old :
  teacher_exists st username ->
  ObjectId announcement_id = Some o ->
  find_one o (announcements_collection st) = Some old ->
  date_accepted expiration_date ->
  start_date_passes start_date ->
  let upd := update_data current_time title message expiration_date username start_date in
  update_announcement current_time announcement_id title message expiration_date
    username start_date st
  = (Ok (to_json (set_fields upd old)),
     Db (update_one o upd (announcements_collection st)) (teachers_collection st)).
Proof.
  intros Ht Ho Hold He Hs upd. unfold update_announcement, bind, parse_id.
  rewrite verify_teacher_known by done. rewrite Ho. simpl. rewrite Hold.
  rewrite validate_date_accepted by done.
  rewrite start_date_step by done.
  simpl. by rewrite (find_one_update_one _ _ _ _ Hold).
Qed.

(** An update that returns went through every check. *)
Lemma update_announcement_inv current_time announcement_id title message
    expiration_date username start_date st r st' :
  update_announcement current_time announcement_id title message expiration_date
    username start_date st = (Ok r, st') ->
  teacher_exists st username
  /\ (exists o old, ObjectId announcement_id = Some o
                   /\ find_one o (announcements_collection st) = Some old)
  /\ date_accepted expiration_date
  /\ start_date_passes start_date.
Proof.
  unfold update_announcement, bind, parse_id.
  destruct (teacher_exists_dec st username) as [Ht|Ht];
    [rewrite verify_teacher_known by done
    |rewrite verify_teacher_unknown by done; done].
  destruct (ObjectId announcement_id) as [o|] eqn:Ho; [|done]. simpl.
  destruct (find_one o (announcements_collection st)) as [old|] eqn:Hold; [|done].
  unfold validate_date at 1, date_accepted.
  destruct (fromisoformat (replace_Z expiration_date)) eqn:He; [|done].
  simpl. unfold start_date_passes, date_accepted, validate_date.
  destruct (truthy start_date) eqn:Htr; simpl.
  - destruct (fromisoformat (replace_Z (default "" start_date))) eqn:Hs; [|done].
    intros _. eauto 10.
  - intros _. split; [done|]. split; [eauto|]. done.
Qed.

(** *** Deleting *)

Lemma delete_announcement_ok announcement_id username st o c1 d c2 :
  teacher_exists st username ->
  ObjectId announcement_id = Some o ->
  announcements_collection st = c1 ++ d :: c2 ->
  find_one o c1 = None -> _id d = o ->
  delete_announcement announcement_id username st
  = (Ok deleted, Db (c1 ++ c2) (teachers_collection st)).
Proof.
  intros Ht Ho Hc Hc1 Hd. unfold delete_announcement, bind, parse_id.
  rewrite verify_teacher_known by done. rewrite Ho. simpl.
  rewrite Hc, delete_one_app by done. reflexivity.
Qed.

Lemma delete_announcement_missing announcement_id username st o :
  teacher_exists st username ->
  ObjectId announcement_id = Some o ->
  find_one o (announcements_collection st) = None ->
  delete_announcement announcement_id username st = (Raise NotFound, st).
Proof.
  intros Ht Ho Hnone. unfold delete_announcement, bind, parse_id.
  rewrite verify_teacher_known by done. rewrite Ho. simpl.
  rewrite delete_one_None by done. by destruct st.
Qed.

Lemma update_announcement_missing current_time announcement_id title message
    expiration_date username start_date st o :
  teacher_exists st username ->
  ObjectId announcement_id = Some o ->
  find_one o (announcements_collection st) = None ->
  update_announcement current_time announcement_id title message expiration_date
    username start_date st = (Raise NotFound, st).
Proof.
  intros Ht Ho Hnone. unfold update_announcement, bind, parse_id.
  rewrite verify_teacher_known by done. rewrite Ho. simpl. by rewrite Hnone.
Qed.

Lemma update_announcement_malformed current_time announcement_id title message
    expiration_date username start_date st :
  teacher_exists st username ->
  ObjectId announcement_id = None ->
  update_announcement current_time announcement_id title message expiration_date
    username start_date st = (Raise InvalidId, st).
Proof.
  intros Ht Ho. unfold update_announcement, bind, parse_id.
  rewrite verify_teacher_known by done. by rewrite Ho.
Qed.

Lemma delete_announcement_malformed announcement_id username st :
  teacher_exists st username ->
  ObjectId announcement_id = None ->
  delete_announcement announcement_id username st = (Raise InvalidId, st).
Proof.
  intros Ht Ho. unfold delete_announcement, bind, parse_id.
  rewrite verify_teacher_known by done. by rewrite Ho.
Qed.

(** *** The handlers keep announcement ids unique *)

Lemma create_announcement_unique current_time fresh title message expiration_date
    username start_date st :
  unique_ids (announcements_collection st) ->
  unique_ids (announcements_collection
    (create_announcement current_time fresh title message expiration_date
       username start_date st).2).
Proof.
  intros Hu. unfold create_announcement, bind.
  destruct (teacher_exists_dec st username) as [Ht|Ht];
    [rewrite verify_teacher_known by done
    |rewrite verify_teacher_unknown by done; done].
  unfold validate_date.
  destruct (fromisoformat (replace_Z expiration_date)); [|done]. simpl.
  destruct (truthy start_date); simpl;
    [destruct (fromisoformat (replace_Z (default "" start_date))); [|done]; simpl|];
    destruct (insert_one fresh _ _) as [c'|] eqn:Hins; simpl; try done;
    eapply insert_one_unique; eauto.
Qed.

Lemma update_announcement_unique current_time announcement_id title message
    expiration_date username start_date st :
  unique_ids (announcements_collection st) ->
  unique_ids (announcements_collection
    (update_announcement current_time announcement_id title message
       expiration_date username start_date st).2).
Proof.
  intros Hu. unfold update_announcement, bind, parse_id.
  destruct (teacher_exists_dec st username) as [Ht|Ht];
    [rewrite verify_teacher_known by done
    |rewrite verify_teacher_unknown by done; done].
  destruct (ObjectId announcement_id) as [o|]; [|done]. simpl.
  destruct (find_one o (announcements_collection st)) as [old|] eqn:Hold; [|done].
  unfold validate_date.
  destruct (fromisoformat (replace_Z expiration_date)); [|done]. simpl.
  destruct (truthy start_date); simpl;
    [destruct (fromisoformat (replace_Z (default "" start_date))); [|done]; simpl|];
    rewrite (find_one_update_one _ _ _ _ Hold); simpl;
    by apply update_one_unique.
Qed.

Lemma delete_announcement_unique announcement_id username st :
  unique_ids (announcements_collection st) ->
  unique_ids (announcements_collection
    (delete_announcement announcement_id username st).2).
Proof.
  intros Hu. unfold delete_announcement, bind, parse_id.
  destruct (teacher_exists_dec st username) as [Ht|Ht];
    [rewrite verify_teacher_known by done
    |rewrite verify_teacher_unknown by done; done].
  destruct (ObjectId announcement_id) as [o|]; [|done]. simpl.
  pose proof (delete_one_unique o _ Hu) as Hd.
  destruct (delete_one o (announcements_collection st)) as [c' n]. simpl in *.
  by destruct (n =? 0)%nat.
Qed.

(** *** The claims *)

(** What list-active selects, in the handler's own terms: the stored
    announcements in the query window, with dates and current time compared
    as strings. *)
Lemma listed_iff_in_query_window current_time st :
  exists ds,
    get_active_announcements current_time st = (Ok (map to_json ds), st)
    /\ (forall d, In d ds <->
          In d (announcements_collection st)
          /\ in_query_window current_time (body d))
    /\ (forall d e, In d (announcements_collection st) ->
          body d !! "expiration_date" = Some (VStr e) ->
          before e current_time -> ~ In d ds)
    /\ (forall d s, In d (announcements_collection st) ->
          body d !! "start_date" = Some (VStr s) ->
          after s current_time -> ~ In d ds)
    /\ (forall d e, In d (announcements_collection st) ->
          body d !! "start_date" = None ->
          body d !! "expiration_date" = Some (VStr e) ->
          at_or_after e current_time -> In d ds).
Proof.
  exists (sort_desc "created_at"
            (find (active_query current_time) (announcements_collection st))).
  assert (Hiff : forall d,
    In d (sort_desc "created_at"
            (find (active_query current_time) (announcements_collection st)))
    <-> In d (announcements_collection st)
        /\ in_query_window current_time (body d)).
  { intros d. by rewrite In_sort_desc, In_find, matches_active_query. }
  split; [apply get_active_announcements_run|].
  split; [exact Hiff|].
  repeat split.
  - intros d e Hd He Hbefore [_ [(e' & He' & Hafter) _]]%Hiff.
    rewrite He in He'. injection He' as <-.
    by apply (before_not_at_or_after e current_time).
  - intros d s Hd Hs Hafter [_ [_ Hstart]]%Hiff.
    destruct Hstart as [Hs'|[Hs'|(s' & Hs' & Hbefore)]]; rewrite Hs in Hs'; try done.
    injection Hs' as <-.
    by apply (before_not_at_or_after current_time s).
  - intros d e Hd Hs He Hafter. apply Hiff. split; [done|].
    split; [by exists e|by left].
Qed.


(** C3. A username without a teacher record makes each of list-all,
    create, update and delete fail with Unauthorized (401) and leaves the
    store as it was, so create persists nothing. A username with a teacher
    record passes the same check in all four: none of them answers 401. *)
Theorem username_decides_authorization st username current_time fresh
    announcement_id title message expiration_date start_date :
  (~ teacher_exists st username ->
     get_all_announcements username st = (Raise Unauthorized, st)
     /\ create_announcement current_time fresh title message expiration_date
          username start_date st = (Raise Unauthorized, st)
     /\ update_announcement current_time announcement_id title message
          expiration_date username start_date st = (Raise Unauthorized, st)
     /\ delete_announcement announcement_id username st
        = (Raise Unauthorized, st))
  /\ (teacher_exists st username ->
      verify_teacher username st = (Ok tt, st)
      /\ forall detail,
           (get_all_announcements username st).1
             <> Raise (HTTPException 401 detail)
           /\ (create_announcement current_time fresh title message
                 expiration_date username start_date st).1
                <> Raise (HTTPException 401 detail)
           /\ (update_announcement current_time announcement_id title message
                 expiration_date username start_date st).1
                <> Raise (HTTPException 401 detail)
           /\ (delete_announcement announcement_id username st).1
                <> Raise (HTTPException 401 detail)).
Proof.
  split; intros Ht.
  - unfold get_all_announcements, create_announcement, update_announcement,
      delete_announcement, bind.
    by rewrite verify_teacher_unknown.
  - split; [by apply verify_teacher_known|]. intros detail.
    rewrite get_all_announcements_run by done.
    unfold create_announcement, update_announcement, delete_announcement,
      bind, parse_id, validate_date, insert_one.
    rewrite verify_teacher_known by done.
    repeat split; [done| | |].
    + destruct (fromisoformat (replace_Z expiration_date)); [|done]. simpl.
      destruct (truthy start_date); simpl;
        [destruct (fromisoformat (replace_Z (default "" start_date))); [|done]; simpl|];
        by destruct (find_one fresh (announcements_collection st)).
    + destruct (ObjectId announcement_id) as [o|]; [|done]. simpl.
      destruct (find_one o (announcements_collection st)) as [old|] eqn:Hold;
        [|done].
      destruct (fromisoformat (replace_Z expiration_date)); [|done]. simpl.
      destruct (truthy start_date); simpl;
        [destruct (fromisoformat (replace_Z (default "" start_date))); [|done]; simpl|];
        by rewrite (find_one_update_one _ _ _ _ Hold).
    + destruct (ObjectId announcement_id) as [o|]; [|done]. simpl.
      destruct (delete_one o (announcements_collection st)) as [c' n]. simpl.
      by destruct (n =? 0)%nat.
Qed.

(** C2, as the handlers have it. For update and delete by a teacher, an id
    that [ObjectId] refuses is answered with BadRequest (400, "Invalid
    announcement ID") and the store is left as it was; a well-formed id
    that matches no record is answered with NotFound (404). The two are
    different error classes. *)
Theorem malformed_id_is_bad_request st username current_time announcement_id
    title message expiration_date start_date :
  teacher_exists st username ->
  (ObjectId announcement_id = None ->
     update_announcement current_time announcement_id title message
       expiration_date username start_date st = (Raise InvalidId, st)
     /\ delete_announcement announcement_id username st = (Raise InvalidId, st))
  /\ (forall o, ObjectId announcement_id = Some o ->
        find_one o (announcements_collection st) = None ->
        update_announcement current_time announcement_id title message
          expiration_date username start_date st = (Raise NotFound, st)
        /\ delete_announcement announcement_id username st
           = (Raise NotFound, st))
  /\ InvalidId <> NotFound.
Proof.
  intros Ht. split; [|split; [|done]].
  - intros Ho. split.
    + by apply update_announcement_malformed.
    + by apply delete_announcement_malformed.
  - intros o Ho Hnone. split.
    + by eapply update_announcement_missing.
    + by eapply delete_announcement_missing.
Qed.

(** C4, as the handler has it. For every create call by a teacher where
    [expiration_date] does not parse after Z-normalization, or where a
    supplied, non-empty [start_date] does not parse, create fails with
    BadRequest (400) and the store is left as it was. *)
Theorem create_rejects_unparsable_dates current_time fresh title message
    expiration_date username start_date st :
  teacher_exists st username ->
  (fromisoformat (replace_Z expiration_date) = false
   \/ exists s, start_date = Some s /\ s <> ""
                /\ fromisoformat (replace_Z s) = false) ->
  exists detail,
    create_announcement current_time fresh title message expiration_date
      username start_date st = (Raise (HTTPException 400 detail), st).
Proof.
  intros Ht Hbad. unfold create_announcement, bind.
  rewrite verify_teacher_known by done.
  destruct (fromisoformat (replace_Z expiration_date)) eqn:He.
  - destruct Hbad as [?|(s & -> & Hs & Hparse)]; [done|].
    rewrite validate_date_accepted by done.
    assert (truthy (Some s) = true) as ->.
    { simpl. apply negb_true_iff, String.eqb_neq, Hs. }
    simpl. rewrite validate_date_rejected by done. eauto.
  - rewrite validate_date_rejected by done. eauto.
Qed.

(** C5. Every create call that succeeds appends one record under an
    identifier the store did not hold, and returns that record: the
    returned object is the stored document in its JSON form, its [id] is
    the non-empty string of the new identifier, [created_by] is the calling
    username, [created_at] is the current time, the other fields are as
    supplied, and [start_date] is null when none was supplied. *)
Theorem create_returns_persisted_record current_time fresh title message
    expiration_date username start_date st r st' :
  create_announcement current_time fresh title message expiration_date username
    start_date st = (Ok r, st') ->
  exists d,
    announcements_collection st' = announcements_collection st ++ [d]
    /\ teachers_collection st' = teachers_collection st
    /\ find_one (_id d) (announcements_collection st) = None
    /\ r = to_json d
    /\ (forall k, k <> "id" -> k <> "_id" -> r !! k = body d !! k)
    /\ r !! "id" = Some (VStr (oid_str (_id d))) /\ oid_str (_id d) <> ""
    /\ r !! "created_by" = Some (VStr username)
    /\ r !! "created_at" = Some (VStr current_time)
    /\ r !! "title" = Some (VStr title)
    /\ r !! "message" = Some (VStr message)
    /\ r !! "expiration_date" = Some (VStr expiration_date)
    /\ r !! "start_date" = Some (of_optional start_date)
    /\ (start_date = None -> r !! "start_date" = Some VNull).
Proof.
  intros Hrun.
  destruct (create_announcement_inv _ _ _ _ _ _ _ _ _ _ Hrun)
    as (Ht & He & Hs & Hfresh).
  rewrite create_announcement_ok in Hrun by done.
  injection Hrun as <- <-.
  eexists. split; [reflexivity|]. split; [reflexivity|].
  split; [exact Hfresh|]. split; [reflexivity|].
  split; [intros k; apply to_json_lookup|].
  split; [apply to_json_id|]. split; [apply oid_str_nonempty|].
  rewrite !to_json_lookup by done. simpl.
  repeat split; try reflexivity. by intros ->.
Qed.

(** C6. Every update call that succeeds rewrites the one stored record
    with the given id: [title], [message], [start_date] and
    [expiration_date] hold the supplied values ([start_date] is null when
    none was supplied, the supplied string otherwise), [updated_by] is the
    calling username and [updated_at] the current time; every other field,
    [created_by] and [created_at] among them, and the identifier are as
    before, and the other records are untouched. The call returns the
    record as it is stored after the update: the returned object carries
    the record's [id], the six fields as just written, [created_by] and
    [created_at] as they were, and every other field of the stored record. *)
Theorem update_replaces_and_stamps current_time announcement_id title message
    expiration_date username start_date st r st' :
  update_announcement current_time announcement_id title message expiration_date
    username start_date st = (Ok r, st') ->
  exists o old new c1 c2,
    ObjectId announcement_id = Some o
    /\ announcements_collection st = c1 ++ old :: c2
    /\ find_one o c1 = None /\ _id old = o
    /\ announcements_collection st' = c1 ++ new :: c2
    /\ teachers_collection st' = teachers_collection st
    /\ find_one o (announcements_collection st') = Some new
    /\ r = to_json new
    /\ _id new = _id old
    /\ (body new !! "title" = Some (VStr title)
        /\ body new !! "message" = Some (VStr message)
        /\ (start_date = None -> body new !! "start_date" = Some VNull)
        /\ (forall s, start_date = Some s ->
              body new !! "start_date" = Some (VStr s))
        /\ body new !! "expiration_date" = Some (VStr expiration_date)
        /\ body new !! "updated_by" = Some (VStr username)
        /\ body new !! "updated_at" = Some (VStr current_time)
        /\ body new !! "created_by" = body old !! "created_by"
        /\ body new !! "created_at" = body old !! "created_at"
        /\ (forall k, k ∉ ["title"; "message"; "start_date"; "expiration_date";
                           "updated_by"; "updated_at"] ->
              body new !! k = body old !! k))
    /\ (r !! "id" = Some (VStr (oid_str o))
        /\ r !! "_id" = None
        /\ r !! "title" = Some (VStr title)
        /\ r !! "message" = Some (VStr message)
        /\ (start_date = None -> r !! "start_date" = Some VNull)
        /\ (forall s, start_date = Some s -> r !! "start_date" = Some (VStr s))
        /\ r !! "expiration_date" = Some (VStr expiration_date)
        /\ r !! "updated_by" = Some (VStr username)
        /\ r !! "updated_at" = Some (VStr current_time)
        /\ r !! "created_by" = body old !! "created_by"
        /\ r !! "created_at" = body old !! "created_at"
        /\ (forall k, k ∉ ["id"; "_id"; "title"; "message"; "start_date";
                           "expiration_date"; "updated_by"; "updated_at"] ->
              r !! k = body old !! k)).
Proof.
  intros Hrun.
  destruct (update_announcement_inv _ _ _ _ _ _ _ _ _ _ Hrun)
    as (Ht & (o & old & Ho & Hold) & He & Hs).
  rewrite (update_announcement_ok _ _ _ _ _ _ _ _ o old) in Hrun by done.
  injection Hrun as <- <-.
  destruct (find_one_Some _ _ _ Hold) as (c1 & c2 & Hc & Hid & Hc1).
  set (upd := update_data current_time title message expiration_date
                username start_date).
  exists o, old, (set_fields upd old), c1, c2.
  simpl. rewrite Hc.
  split; [done|]. split; [done|]. split; [done|]. split; [done|].
  split; [by apply update_one_app|]. split; [done|].
  split.
  { rewrite update_one_app by done. rewrite find_one_app_None by done.
    by apply find_one_here. }
  split; [done|]. split; [done|].
  assert (Hother : forall k,
    k ∉ ["title"; "message"; "start_date"; "expiration_date";
         "updated_by"; "updated_at"] ->
    (upd ∪ body old) !! k = body old !! k).
  { intros k Hk. apply lookup_union_r. unfold upd, update_data.
    rewrite !not_elem_of_cons in Hk. destruct Hk as (?&?&?&?&?&?&_).
    by rewrite !lookup_insert_ne, lookup_singleton_ne. }
  assert (Hkept : forall k, In k ["created_by"; "created_at"] ->
    (upd ∪ body old) !! k = body old !! k).
  { intros k Hk. apply Hother. rewrite !not_elem_of_cons.
    simpl in Hk. destruct Hk as [<-|[<-|[]]];
      repeat split; try done; apply not_elem_of_nil. }
  assert (Hset : forall k v, upd !! k = Some v -> (upd ∪ body old) !! k = Some v).
  { intros k v Hk. by apply lookup_union_Some_l. }
  assert (Hstored :
    (upd ∪ body old) !! "title" = Some (VStr title)
    /\ (upd ∪ body old) !! "message" = Some (VStr message)
    /\ (start_date = None -> (upd ∪ body old) !! "start_date" = Some VNull)
    /\ (forall s, start_date = Some s ->
          (upd ∪ body old) !! "start_date" = Some (VStr s))
    /\ (upd ∪ body old) !! "expiration_date" = Some (VStr expiration_date)
    /\ (upd ∪ body old) !! "updated_by" = Some (VStr username)
    /\ (upd ∪ body old) !! "updated_at" = Some (VStr current_time)
    /\ (upd ∪ body old) !! "created_by" = body old !! "created_by"
    /\ (upd ∪ body old) !! "created_at" = body old !! "created_at").
  { split; [by apply Hset|]. split; [by apply Hset|].
    split; [intros ->; by apply Hset|].
    split; [intros s ->; by apply Hset|].
    split; [by apply Hset|]. split; [by apply Hset|]. split; [by apply Hset|].
    split; apply Hkept; simpl; auto. }
  destruct Hstored as (Htitle & Hmsg & Hnone & Hsome & Hexp & Hby & Hat & Hcby & Hcat).
  split.
  { repeat (split; [assumption|]). exact Hother. }
  rewrite to_json_id. simpl.
  split; [by rewrite Hid|].
  split; [unfold to_json; apply lookup_delete_eq|].
  rewrite !to_json_lookup by done. simpl.
  repeat (split; [assumption|]).
  intros k Hk. rewrite !not_elem_of_cons in Hk.
  destruct Hk as (Hk1 & Hk2 & Hk3 & Hk4 & Hk5 & Hk6 & Hk7 & Hk8 & _).
  rewrite to_json_lookup by done. simpl. apply Hother.
  rewrite !not_elem_of_cons. repeat split; try done. apply not_elem_of_nil.
Qed.

Lemma find_one_unique (c : collection oid) d :
  unique_ids c -> In d c -> find_one (_id d) c = Some d.
Proof.
  intros Hu Hd. apply in_split in Hd as (c1 & c2 & ->).
  apply unique_ids_app_inv in Hu as [_ Hnone].
  rewrite find_one_app_None.
  - by apply find_one_here.
  - apply find_one_None. intros e He. rewrite find_one_None in Hnone.
    apply Hnone, in_or_app. by left.
Qed.

(** C8. For a teacher and a well-formed id that matches a stored record,
    delete removes that record and no other, and returns the confirmation
    message; a second delete with the same id then fails with NotFound
    (404). Ids are unique in the store. *)
Theorem delete_removes_one_then_not_found announcement_id username st o d :
  teacher_exists st username ->
  ObjectId announcement_id = Some o ->
  unique_ids (announcements_collection st) ->
  In d (announcements_collection st) -> _id d = o ->
  exists c1 c2,
    announcements_collection st = c1 ++ d :: c2
    /\ delete_announcement announcement_id username st
       = (Ok deleted, Db (c1 ++ c2) (teachers_collection st))
    /\ delete_announcement announcement_id username
         (Db (c1 ++ c2) (teachers_collection st))
       = (Raise NotFound, Db (c1 ++ c2) (teachers_collection st)).
Proof.
  intros Ht Ho Hu Hd Hid.
  pose proof (find_one_unique _ _ Hu Hd) as Hfind. rewrite Hid in Hfind.
  destruct (find_one_Some _ _ _ Hfind) as (c1 & c2 & Hc & _ & Hc1).
  exists c1, c2. split; [done|]. split.
  - by eapply delete_announcement_ok.
  - eapply delete_announcement_missing; [done|done|]. simpl.
    rewrite Hc in Hu. apply unique_ids_app_inv in Hu as [_ Hnone].
    by rewrite Hid in Hnone.
Qed.

(** C9. A timestamp [t ++ "Z"] whose normal form [t ++ "+00:00"] is a
    timestamp [fromisoformat] accepts ([t] itself holding no further Z)
    passes the date validation of create and of update, as expiration date
    and as start date: the trailing Z raises no BadRequest. *)
Theorem trailing_Z_is_accepted t :
  Z_free t = true ->
  fromisoformat (t ++ "+00:00") = true ->
  (forall detail st, validate_date (t ++ "Z") detail st = (Ok tt, st))
  /\ (forall current_time fresh title message username st,
        teacher_exists st username ->
        find_one fresh (announcements_collection st) = None ->
        exists r st',
          create_announcement current_time fresh title message (t ++ "Z")
            username (Some (t ++ "Z")%string) st = (Ok r, st'))
  /\ (forall current_time announcement_id title message username st o old,
        teacher_exists st username ->
        ObjectId announcement_id = Some o ->
        find_one o (announcements_collection st) = Some old ->
        exists r st',
          update_announcement current_time announcement_id title message
            (t ++ "Z") username (Some (t ++ "Z")%string) st = (Ok r, st')).
Proof.
  intros Hfree Hiso.
  assert (Hacc : date_accepted (t ++ "Z")).
  { unfold date_accepted. by rewrite replace_Z_suffix. }
  assert (Hstart : start_date_passes (Some (t ++ "Z")%string)) by (intros _; exact Hacc).
  split; [|split].
  - intros detail st. by apply validate_date_accepted.
  - intros current_time fresh title message username st Ht Hfresh.
    rewrite create_announcement_ok by done. eauto.
  - intros current_time announcement_id title message username st o old Ht Ho Hold.
    rewrite (update_announcement_ok _ _ _ _ _ _ _ _ o old) by done. eauto.
Qed.

(** C10. When a teacher calls create or update with the empty string as
    [start_date], the start date is not validated at all (whatever
    [fromisoformat] would say of it), no BadRequest is raised for it, and
    the record is stored with [start_date] equal to the empty string, not
    null. *)
Theorem empty_start_date_skips_validation current_time title message
    expiration_date username st :
  teacher_exists st username ->
  date_accepted expiration_date ->
  (forall fresh,
     find_one fresh (announcements_collection st) = None ->
     exists r d,
       create_announcement current_time fresh title message expiration_date
         username (Some "") st
       = (Ok r, Db (announcements_collection st ++ [d]) (teachers_collection st))
       /\ body d !! "start_date" = Some (VStr "")
       /\ body d !! "start_date" <> Some VNull
       /\ r !! "start_date" = Some (VStr ""))
  /\ (forall announcement_id o old,
       ObjectId announcement_id = Some o ->
       find_one o (announcements_collection st) = Some old ->
       exists r new st',
         update_announcement current_time announcement_id title message
           expiration_date username (Some "") st = (Ok r, st')
         /\ find_one o (announcements_collection st') = Some new
         /\ body new !! "start_date" = Some (VStr "")
         /\ body new !! "start_date" <> Some VNull
         /\ r !! "start_date" = Some (VStr "")).
Proof.
  intros Ht He.
  assert (Hskip : start_date_passes (Some "")) by (intros Htr; done).
  split.
  - intros fresh Hfresh. rewrite create_announcement_ok by done.
    eexists _, _. split; [reflexivity|]. simpl.
    rewrite to_json_lookup by done. simpl. done.
  - intros announcement_id o old Ho Hold.
    rewrite (update_announcement_ok _ _ _ _ _ _ _ _ o old) by done.
    eexists _, _, _. split; [reflexivity|]. simpl.
    split; [by apply find_one_update_one|].
    rewrite to_json_lookup by done. simpl.
    assert ((update_data current_time title message expiration_date username
               (Some "") ∪ body old) !! "start_date" = Some (VStr "")) as ->
      by (by apply lookup_union_Some_l).
    done.
Qed.

End Claims.


(** * Further properties of the handlers *)

Section Outcomes.
Context `{Driver}.
Implicit Types (st : db) (username current_time : string) (d : document oid).

(** ** Every outcome of the writing handlers *)

Lemma db_eta st : Db (announcements_collection st) (teachers_collection st) = st.
Proof. by destruct st. Qed.

Lemma create_announcement_cases current_time fresh title message expiration_date
    username start_date st :
  let run := create_announcement current_time fresh title message expiration_date
               username start_date st in
  let a := announcement current_time title message expiration_date username
             start_date in
  (~ teacher_exists st username /\ run = (Raise Unauthorized, st))
  \/ (teacher_exists st username
      /\ fromisoformat (replace_Z expiration_date) = false
      /\ run = (Raise (HTTPException 400 "Invalid expiration date format"), st))
  \/ (teacher_exists st username /\ date_accepted expiration_date
      /\ truthy start_date = true
      /\ fromisoformat (replace_Z (default "" start_date)) = false
      /\ run = (Raise (HTTPException 400 "Invalid start date format"), st))
  \/ (teacher_exists st username /\ date_accepted expiration_date
      /\ start_date_passes start_date
      /\ is_Some (find_one fresh (announcements_collection st))
      /\ run = (Raise DuplicateKeyError, st))
  \/ (teacher_exists st username /\ date_accepted expiration_date
      /\ start_date_passes start_date
      /\ find_one fresh (announcements_collection st) = None
      /\ run = (Ok (to_json (Doc fresh a)),
                Db (announcements_collection st ++ [Doc fresh a])
                   (teachers_collection st))).
Proof.
  intros run a. subst run.
  destruct (teacher_exists_dec st username) as [Ht|Ht].
  2:{ left. split; [done|]. unfold create_announcement, bind.
      by rewrite verify_teacher_unknown. }
  right.
  destruct (fromisoformat (replace_Z expiration_date)) eqn:He.
  2:{ left. split; [done|]. split; [done|]. unfold create_announcement, bind.
      rewrite verify_teacher_known by done.
      by rewrite validate_date_rejected. }
  right.
  destruct (truthy start_date) eqn:Htr.
  - destruct (fromisoformat (replace_Z (default "" start_date))) eqn:Hs.
    + right.
      assert (Hp : start_date_passes start_date) by (intros _; exact Hs).
      destruct (find_one fresh (announcements_collection st)) as [e|] eqn:Hf.
      * left. repeat (split; [done|]). unfold create_announcement, bind.
        rewrite verify_teacher_known by done.
        rewrite validate_date_accepted by done.
        rewrite start_date_step by done.
        simpl. unfold insert_one. by rewrite Hf.
      * right. repeat (split; [done|]). by apply create_announcement_ok.
    + left. repeat (split; [done|]). unfold create_announcement, bind.
      rewrite verify_teacher_known by done.
      rewrite validate_date_accepted by done.
      rewrite ?Htr. cbv beta iota. by rewrite validate_date_rejected.
  - right.
    assert (Hp : start_date_passes start_date).
    { intros Htr'. rewrite Htr in Htr'. done. }
    destruct (find_one fresh (announcements_collection st)) as [e|] eqn:Hf.
    * left. repeat (split; [done|]). unfold create_announcement, bind.
      rewrite verify_teacher_known by done.
      rewrite validate_date_accepted by done.
      rewrite start_date_step by done.
      simpl. unfold insert_one. by rewrite Hf.
    * right. repeat (split; [done|]). by apply create_announcement_ok.
Qed.

Lemma update_announcement_cases current_time announcement_id title message
    expiration_date username start_date st :
  let run := update_announcement current_time announcement_id title message
               expiration_date username start_date st in
  let upd := update_data current_time title message expiration_date username
               start_date in
  (~ teacher_exists st username /\ run = (Raise Unauthorized, st))
  \/ (teacher_exists st username /\ ObjectId announcement_id = None
      /\ run = (Raise InvalidId, st))
  \/ (exists o, teacher_exists st username /\ ObjectId announcement_id = Some o
      /\ find_one o (announcements_collection st) = None
      /\ run = (Raise NotFound, st))
  \/ (exists o old, teacher_exists st username
      /\ ObjectId announcement_id = Some o
      /\ find_one o (announcements_collection st) = Some old
      /\ fromisoformat (replace_Z expiration_date) = false
      /\ run = (Raise (HTTPException 400 "Invalid expiration date format"), st))
  \/ (exists o old, teacher_exists st username
      /\ ObjectId announcement_id = Some o
      /\ find_one o (announcements_collection st) = Some old
      /\ date_accepted expiration_date
      /\ truthy start_date = true
      /\ fromisoformat (replace_Z (default "" start_date)) = false
      /\ run = (Raise (HTTPException 400 "Invalid start date format"), st))
  \/ (exists o old, teacher_exists st username
      /\ ObjectId announcement_id = Some o
      /\ find_one o (announcements_collection st) = Some old
      /\ date_accepted expiration_date
      /\ start_date_passes start_date
      /\ run = (Ok (to_json (set_fields upd old)),
                Db (update_one o upd (announcements_collection st))
                   (teachers_collection st))).
Proof.
  intros run upd. subst run.
  destruct (teacher_exists_dec st username) as [Ht|Ht].
  2:{ left. split; [done|]. unfold update_announcement, bind.
      by rewrite verify_teacher_unknown. }
  right.
  destruct (ObjectId announcement_id) as [o|] eqn:Ho.
  2:{ left. repeat (split; [done|]). by apply update_announcement_malformed. }
  right.
  destruct (find_one o (announcements_collection st)) as [old|] eqn:Hold.
  2:{ left. exists o. repeat (split; [done|]).
      by eapply update_announcement_missing. }
  right.
  assert (Hprefix :
    update_announcement current_time announcement_id title message
      expiration_date username start_date st
    = (validate_date expiration_date "Invalid expiration date format" ;;;
       (if truthy start_date
        then validate_date (default "" start_date) "Invalid start date format"
        else ret tt) ;;;
       put_announcements (update_one o upd (announcements_collection st)) ;;;
       coll' <- get_announcements ;;
       match find_one o coll' with
       | None => raise TypeError
       | Some updated => ret (to_json updated)
       end) st).
  { unfold update_announcement, bind at 1 2 3, parse_id.
    rewrite verify_teacher_known by done. rewrite Ho. simpl. by rewrite Hold. }
  destruct (fromisoformat (replace_Z expiration_date)) eqn:He.
  2:{ left. exists o, old. repeat (split; [done|]).
      rewrite Hprefix. unfold bind.
      by rewrite validate_date_rejected. }
  right.
  destruct (truthy start_date) eqn:Htr.
  - destruct (fromisoformat (replace_Z (default "" start_date))) eqn:Hs.
    + right. exists o, old.
      assert (Hp : start_date_passes start_date) by (intros _; exact Hs).
      repeat (split; [done|]). by apply update_announcement_ok.
    + left. exists o, old. repeat (split; [done|]).
      rewrite Hprefix. unfold bind.
      rewrite validate_date_accepted by done.
      rewrite ?Htr. cbv beta iota. by rewrite validate_date_rejected.
  - right. exists o, old.
    assert (Hp : start_date_passes start_date).
    { intros Htr'. rewrite Htr in Htr'. done. }
    repeat (split; [done|]). by apply update_announcement_ok.
Qed.

Lemma delete_announcement_cases announcement_id username st :
  let run := delete_announcement announcement_id username st in
  (~ teacher_exists st username /\ run = (Raise Unauthorized, st))
  \/ (teacher_exists st username /\ ObjectId announcement_id = None
      /\ run = (Raise InvalidId, st))
  \/ (exists o, teacher_exists st username /\ ObjectId announcement_id = Some o
      /\ find_one o (announcements_collection st) = None
      /\ run = (Raise NotFound, st))
  \/ (exists o d c1 c2, teacher_exists st username
      /\ ObjectId announcement_id = Some o
      /\ announcements_collection st = c1 ++ d :: c2
      /\ find_one o c1 = None /\ _id d = o
      /\ run = (Ok deleted, Db (c1 ++ c2) (teachers_collection st))).
Proof.
  intros run. subst run.
  destruct (teacher_exists_dec st username) as [Ht|Ht].
  2:{ left. split; [done|]. unfold delete_announcement, bind.
      by rewrite verify_teacher_unknown. }
  right.
  destruct (ObjectId announcement_id) as [o|] eqn:Ho.
  2:{ left. repeat (split; [done|]). by apply delete_announcement_malformed. }
  right.
  destruct (find_one o (announcements_collection st)) as [d|] eqn:Hd.
  - right. destruct (find_one_Some _ _ _ Hd) as (c1 & c2 & Hc & Hid & Hc1).
    exists o, d, c1, c2. repeat (split; [done|]).
    by eapply delete_announcement_ok.
  - left. exists o. repeat (split; [done|]).
    by eapply delete_announcement_missing.
Qed.

End Outcomes.

(** ** More on the collection operations *)

Section StoreFrame.
Context {K : Type} `{EqDecision K}.
Implicit Types (k o : K) (d e : document K) (c : collection K).

Lemma desc_insert_perm f d (l : list (document K)) :
  Permutation (desc_insert f d l) (d :: l).
Proof.
  induction l as [|e l IH]; simpl; [done|].
  destruct (value_leb _ _); [done|].
  rewrite IH. apply perm_swap.
Qed.

Lemma sort_desc_perm f (l : list (document K)) : Permutation (sort_desc f l) l.
Proof.
  induction l as [|e l IH]; simpl; [done|].
  rewrite desc_insert_perm. by constructor.
Qed.

Lemma find_length q c : length (find q c) <= length c.
Proof.
  unfold find. induction c as [|e c IH]; simpl; [done|].
  destruct (matches q (body e)); simpl; lia.
Qed.

Lemma find_one_update_one_ne k o upd c :
  k <> o -> find_one k (update_one o upd c) = find_one k c.
Proof.
  intros Hne. unfold find_one. induction c as [|e c IH]; simpl; [done|].
  case_bool_decide as He; simpl.
  - subst o. by rewrite !bool_decide_eq_false_2 by done.
  - by rewrite IH.
Qed.

Lemma find_one_delete_one_ne k o c :
  k <> o -> find_one k (delete_one o c).1 = find_one k c.
Proof.
  intros Hne. unfold find_one. induction c as [|e c IH]; simpl; [done|].
  case_bool_decide as He; simpl.
  - subst o. by rewrite bool_decide_eq_false_2 by done.
  - destruct (delete_one o c) as [r n]. simpl in *. by rewrite IH.
Qed.

Lemma find_one_snoc_ne k d c : _id d <> k -> find_one k (c ++ [d]) = find_one k c.
Proof.
  intros Hne. unfold find_one. induction c as [|e c IH]; simpl.
  - by rewrite bool_decide_eq_false_2.
  - by rewrite IH.
Qed.

Lemma set_fields_idemp upd d : set_fields upd (set_fields upd d) = set_fields upd d.
Proof.
  unfold set_fields. simpl. f_equal. apply map_eq. intros i.
  rewrite !lookup_union. by destruct (upd !! i), (body d !! i).
Qed.

Lemma update_one_idemp o upd c :
  update_one o upd (update_one o upd c) = update_one o upd c.
Proof.
  induction c as [|e c IH]; simpl; [done|].
  case_bool_decide as He; simpl.
  - rewrite bool_decide_eq_true_2 by done. by rewrite set_fields_idemp.
  - rewrite bool_decide_eq_false_2 by done. by rewrite IH.
Qed.

End StoreFrame.

Lemma Z_free_replace_Z s : Z_free (replace_Z s) = true.
Proof.
  induction s as [|c s IH]; simpl; [done|].
  destruct (Ascii.eqb c "Z") eqn:Hc; simpl; [done|]. by rewrite Hc.
Qed.

(** ** What the handlers guarantee beyond the specification's claims *)

Section Extras.
Context `{Driver}.
Implicit Types (st : db) (username current_time : string) (d : document oid).

Ltac break :=
  repeat match goal with
         | Hc : _ \/ _ |- _ => destruct Hc
         | Hc : _ /\ _ |- _ => destruct Hc
         | Hc : exists _, _ |- _ => destruct Hc
         end.

Ltac outcomes_of_create :=
  match goal with
  | |- context [create_announcement ?t ?f ?ti ?m ?e ?u ?s ?st] =>
      let Hc := fresh "Hc" in
      pose proof (create_announcement_cases t f ti m e u s st) as Hc;
      cbv zeta in Hc; break
  end.

Ltac outcomes_of_update :=
  match goal with
  | |- context [update_announcement ?t ?i ?ti ?m ?e ?u ?s ?st] =>
      let Hc := fresh "Hc" in
      pose proof (update_announcement_cases t i ti m e u s st) as Hc;
      cbv zeta in Hc; break
  end.

Ltac outcomes_of_delete :=
  match goal with
  | |- context [delete_announcement ?i ?u ?st] =>
      let Hc := fresh "Hc" in
      pose proof (delete_announcement_cases i u st) as Hc;
      cbv zeta in Hc; break
  end.

Ltac use_outcome :=
  match goal with
  | Hr : ?run = (_, _) |- context [?run] => rewrite Hr
  end.

Lemma get_all_announcements_unknown username st :
  ~ teacher_exists st username ->
  get_all_announcements username st = (Raise Unauthorized, st).
Proof.
  intros Ht. unfold get_all_announcements, bind.
  by rewrite verify_teacher_unknown.
Qed.

(** X1. A call that raises leaves both collections exactly as they were:
    whatever the exception, list-all, create, update and delete apply
    nothing before failing. *)
Theorem failed_call_changes_nothing current_time fresh announcement_id title
    message expiration_date username start_date st :
  (forall e st', get_all_announcements username st = (Raise e, st') -> st' = st)
  /\ (forall e st',
        create_announcement current_time fresh title message expiration_date
          username start_date st = (Raise e, st') -> st' = st)
  /\ (forall e st',
        update_announcement current_time announcement_id title message
          expiration_date username start_date st = (Raise e, st') -> st' = st)
  /\ (forall e st',
        delete_announcement announcement_id username st = (Raise e, st') ->
        st' = st).
Proof.
  repeat split; intros e st'.
  - destruct (teacher_exists_dec st username) as [Ht|Ht].
    + by rewrite get_all_announcements_run.
    + rewrite get_all_announcements_unknown by done. congruence.
  - outcomes_of_create; use_outcome; congruence.
  - outcomes_of_update; use_outcome; congruence.
  - outcomes_of_delete; use_outcome; congruence.
Qed.

(** X2. No handler ever writes to the teachers collection, and the two
    listings write to nothing at all. *)
Theorem teachers_never_change current_time fresh announcement_id title message
    expiration_date username start_date st :
  (get_active_announcements current_time st).2 = st
  /\ (get_all_announcements username st).2 = st
  /\ teachers_collection
       (create_announcement current_time fresh title message expiration_date
          username start_date st).2 = teachers_collection st
  /\ teachers_collection
       (update_announcement current_time announcement_id title message
          expiration_date username start_date st).2 = teachers_collection st
  /\ teachers_collection (delete_announcement announcement_id username st).2
     = teachers_collection st.
Proof.
  repeat split.
  - destruct (teacher_exists_dec st username) as [Ht|Ht].
    + by rewrite get_all_announcements_run.
    + by rewrite get_all_announcements_unknown.
  - outcomes_of_create; use_outcome; done.
  - outcomes_of_update; use_outcome; done.
  - outcomes_of_delete; use_outcome; done.
Qed.

(** X3. If ids are unique among the stored announcements before a create,
    an update or a delete, they are unique after it, whatever the call's
    outcome. *)
Theorem handlers_keep_ids_unique current_time fresh announcement_id title message
    expiration_date username start_date st :
  unique_ids (announcements_collection st) ->
  unique_ids (announcements_collection
    (create_announcement current_time fresh title message expiration_date
       username start_date st).2)
  /\ unique_ids (announcements_collection
       (update_announcement current_time announcement_id title message
          expiration_date username start_date st).2)
  /\ unique_ids (announcements_collection
       (delete_announcement announcement_id username st).2).
Proof.
  intros Hu. split; [|split].
  - by apply create_announcement_unique.
  - by apply update_announcement_unique.
  - by apply delete_announcement_unique.
Qed.

(** X4. update never adds, removes or renumbers a record: the sequence of
    stored ids is the same after the call as before, whatever its outcome. *)
Theorem update_keeps_the_ids current_time announcement_id title message
    expiration_date username start_date st :
  map _id (announcements_collection
    (update_announcement current_time announcement_id title message
       expiration_date username start_date st).2)
  = map _id (announcements_collection st).
Proof.
  outcomes_of_update; use_outcome; simpl; try done.
  apply update_one_ids.
Qed.

(** X5. The statuses each handler can answer with: list-active always 200;
    list-all 200 or 401; create 200, 400 or 401, and 500 only when the
    generated id is already stored; update and delete 200, 400, 401 or 404.
    In particular the unchecked re-read at the end of update never fails. *)
Theorem statuses_of_the_handlers current_time fresh announcement_id title message
    expiration_date username start_date st :
  status_of (get_active_announcements current_time st).1 = 200%Z
  /\ In (status_of (get_all_announcements username st).1) [200; 401]%Z
  /\ In (status_of
           (create_announcement current_time fresh title message expiration_date
              username start_date st).1) [200; 400; 401; 500]%Z
  /\ (status_of
        (create_announcement current_time fresh title message expiration_date
           username start_date st).1 = 500%Z ->
      is_Some (find_one fresh (announcements_collection st)))
  /\ In (status_of
           (update_announcement current_time announcement_id title message
              expiration_date username start_date st).1) [200; 400; 401; 404]%Z
  /\ In (status_of (delete_announcement announcement_id username st).1)
        [200; 400; 401; 404]%Z.
Proof.
  split; [done|]. split; [|split; [|split; [|split]]].
  - destruct (teacher_exists_dec st username) as [Ht|Ht].
    + rewrite get_all_announcements_run by done. simpl. auto.
    + rewrite get_all_announcements_unknown by done. simpl. auto.
  - outcomes_of_create; use_outcome; simpl; auto 10.
  - outcomes_of_create; use_outcome; simpl; done.
  - outcomes_of_update; use_outcome; simpl; auto 10.
  - outcomes_of_delete; use_outcome; simpl; auto 10.
Qed.

(** X6. For a teacher, list-all returns every stored announcement exactly
    once: the records it returns are the JSON forms of a rearrangement of
    the whole collection, so there are as many as are stored. *)
Theorem list_all_returns_every_record username st :
  teacher_exists st username ->
  exists ds,
    get_all_announcements username st = (Ok (map to_json ds), st)
    /\ Permutation ds (announcements_collection st)
    /\ length (map to_json ds) = length (announcements_collection st).
Proof.
  intros Ht. exists (sort_desc "created_at" (announcements_collection st)).
  split; [by apply get_all_announcements_run|].
  split; [apply sort_desc_perm|].
  by rewrite length_map, sort_desc_length.
Qed.

(** X7. Whatever list-active shows, list-all shows to a teacher too, and
    list-active never returns more records than list-all. *)
Theorem active_records_are_among_all current_time username st :
  teacher_exists st username ->
  exists la ll,
    get_active_announcements current_time st = (Ok la, st)
    /\ get_all_announcements username st = (Ok ll, st)
    /\ (forall r, In r la -> In r ll)
    /\ length la <= length ll.
Proof.
  intros Ht. eexists _, _.
  split; [apply get_active_announcements_run|].
  split; [by apply get_all_announcements_run|].
  split.
  - intros r (d & <- & Hd)%in_map_iff. apply in_map.
    apply In_sort_desc. by apply In_sort_desc, In_find in Hd as [Hd _].
  - rewrite !length_map, !sort_desc_length. apply find_length.
Qed.

(** X8. No response carries the store's raw [_id]: every record returned by
    list-active, list-all, create and update has no [_id] key and has an
    [id] that is a string of 24 characters. *)
Theorem responses_carry_id_not_raw_id current_time fresh announcement_id title
    message expiration_date username start_date st :
  (forall l st', get_active_announcements current_time st = (Ok l, st') ->
     Forall carries_id l)
  /\ (forall l st', get_all_announcements username st = (Ok l, st') ->
        Forall carries_id l)
  /\ (forall r st',
        create_announcement current_time fresh title message expiration_date
          username start_date st = (Ok r, st') -> carries_id r)
  /\ (forall r st',
        update_announcement current_time announcement_id title message
          expiration_date username start_date st = (Ok r, st') -> carries_id r).
Proof.
  assert (Hjson : forall d, carries_id (to_json d)).
  { intros d. split.
    - unfold to_json. apply lookup_delete_eq.
    - exists (oid_str (_id d)). split; [apply to_json_id|apply oid_str_length]. }
  assert (Hall : forall ds : list (document oid), Forall carries_id (map to_json ds)).
  { intros ds. apply Forall_forall. intros r Hr.
    apply list_elem_of_In, in_map_iff in Hr as (d & <- & _). apply Hjson. }
  split; [|split; [|split]].
  - intros l st'. rewrite get_active_announcements_run. intros [= <- _]. apply Hall.
  - intros l st'. destruct (teacher_exists_dec st username) as [Ht|Ht].
    + rewrite get_all_announcements_run by done. intros [= <- _]. apply Hall.
    + by rewrite get_all_announcements_unknown.
  - intros r st'. outcomes_of_create; use_outcome; intros [= <- _]. apply Hjson.
  - intros r st'. outcomes_of_update; use_outcome; intros [= <- _]. apply Hjson.
Qed.

(** X9. Date errors name the field, and the expiration date is checked
    first. For a teacher, create answers 400 "Invalid expiration date
    format" when the expiration date does not parse, whatever the start
    date, and 400 "Invalid start date format" when the expiration date
    parses and a non-empty start date does not; update does the same once
    the id matched a record. In each case nothing is written. *)
Theorem date_errors_name_the_field current_time fresh title message
    expiration_date username start_date st :
  teacher_exists st username ->
  (fromisoformat (replace_Z expiration_date) = false ->
     create_announcement current_time fresh title message expiration_date
       username start_date st
     = (Raise (HTTPException 400 "Invalid expiration date format"), st))
  /\ (forall s, date_accepted expiration_date -> start_date = Some s ->
        s <> "" -> fromisoformat (replace_Z s) = false ->
        create_announcement current_time fresh title message expiration_date
          username start_date st
        = (Raise (HTTPException 400 "Invalid start date format"), st))
  /\ (forall announcement_id o old,
        ObjectId announcement_id = Some o ->
        find_one o (announcements_collection st) = Some old ->
        (fromisoformat (replace_Z expiration_date) = false ->
           update_announcement current_time announcement_id title message
             expiration_date username start_date st
           = (Raise (HTTPException 400 "Invalid expiration date format"), st))
        /\ (forall s, date_accepted expiration_date -> start_date = Some s ->
              s <> "" -> fromisoformat (replace_Z s) = false ->
              update_announcement current_time announcement_id title message
                expiration_date username start_date st
              = (Raise (HTTPException 400 "Invalid start date format"), st))).
Proof.
  intros Ht.
  assert (Htruthy : forall s, s <> "" -> truthy (Some s) = true).
  { intros s Hs. simpl. by apply negb_true_iff, String.eqb_neq. }
  split; [|split].
  - intros He. outcomes_of_create; use_outcome; try done;
      unfold date_accepted in *; congruence.
  - intros s He -> Hs Hbad. pose proof (Htruthy s Hs) as Htr.
    outcomes_of_create; use_outcome; try done;
      unfold date_accepted in *; try congruence;
      match goal with Hp : start_date_passes _ |- _ =>
        specialize (Hp Htr); unfold date_accepted in Hp; simpl in Hp; congruence
      end.
  - intros announcement_id o old Ho Hold. split.
    + intros He. outcomes_of_update; use_outcome; try done;
        unfold date_accepted in *; congruence.
    + intros s He -> Hs Hbad. pose proof (Htruthy s Hs) as Htr.
      outcomes_of_update; use_outcome; try done;
        unfold date_accepted in *; try congruence;
        match goal with Hp : start_date_passes _ |- _ =>
          specialize (Hp Htr); unfold date_accepted in Hp; simpl in Hp; congruence
        end.
Qed.

(** X10. update is idempotent: repeating a successful update with the same
    arguments and the same clock reading returns the same record and leaves
    the store as the first call left it. *)
Theorem update_twice_is_update_once current_time announcement_id title message
    expiration_date username start_date st r st1 :
  update_announcement current_time announcement_id title message expiration_date
    username start_date st = (Ok r, st1) ->
  update_announcement current_time announcement_id title message expiration_date
    username start_date st1 = (Ok r, st1).
Proof.
  intros Hrun.
  destruct (update_announcement_inv _ _ _ _ _ _ _ _ _ _ Hrun)
    as (Ht & (o & old & Ho & Hold) & He & Hs).
  rewrite (update_announcement_ok _ _ _ _ _ _ _ _ o old) in Hrun by done.
  injection Hrun as <- <-.
  rewrite (update_announcement_ok _ _ _ _ _ _ _ _ o
             (set_fields (update_data current_time title message expiration_date
                            username start_date) old)); try done.
  - simpl. by rewrite set_fields_idemp, update_one_idemp.
  - simpl. by apply find_one_update_one.
Qed.

(** X11. create and delete are inverse: when [ObjectId] reads back the
    string of the generated id, deleting the id that a successful create
    returned succeeds and restores the store to what it was before the
    create. *)
Theorem create_then_delete_restores current_time fresh title message
    expiration_date username start_date st r st1 :
  create_announcement current_time fresh title message expiration_date username
    start_date st = (Ok r, st1) ->
  ObjectId (oid_str fresh) = Some fresh ->
  exists i,
    r !! "id" = Some (VStr i)
    /\ delete_announcement i username st1 = (Ok deleted, st).
Proof.
  intros Hrun Hback.
  destruct (create_announcement_inv _ _ _ _ _ _ _ _ _ _ Hrun)
    as (Ht & He & Hs & Hfresh).
  rewrite create_announcement_ok in Hrun by done.
  injection Hrun as <- <-.
  exists (oid_str fresh). split; [apply to_json_id|].
  rewrite (delete_announcement_ok _ _ _ fresh (announcements_collection st)
             (Doc fresh (announcement current_time title message expiration_date
                           username start_date)) []); try done.
  simpl. by rewrite app_nil_r, db_eta.
Qed.

(** X12. A record is visible as soon as it is created: after a successful
    create, list-active at any time not after the expiration date and not
    before the start date (if one was given) returns the created record. *)
Theorem created_record_is_listed current_time fresh title message expiration_date
    username start_date st r st1 now :
  create_announcement current_time fresh title message expiration_date username
    start_date st = (Ok r, st1) ->
  at_or_after expiration_date now ->
  (forall s, start_date = Some s -> at_or_before s now) ->
  exists l, get_active_announcements now st1 = (Ok l, st1) /\ In r l.
Proof.
  intros Hrun Hexp Hstart.
  destruct (create_announcement_inv _ _ _ _ _ _ _ _ _ _ Hrun)
    as (Ht & He & Hs & Hfresh).
  rewrite create_announcement_ok in Hrun by done.
  injection Hrun as <- <-.
  eexists. split; [apply get_active_announcements_run|].
  apply in_map, In_sort_desc, In_find. simpl. split.
  - apply in_or_app. right. by left.
  - apply matches_active_query. split.
    + by exists expiration_date.
    + destruct start_date as [s|]; [|by right; left].
      right. right. exists s. split; [done|]. by apply Hstart.
Qed.

(** X13. Exactly when the writing handlers succeed. create returns iff the
    username has a teacher record, the expiration date is accepted, the
    start date is falsy or accepted, and the generated id is not stored
    yet; update returns iff the username has a teacher record, the id is
    well formed and matches a stored record, and the dates pass likewise;
    delete returns iff the username has a teacher record and the id is well
    formed and matches a stored record. *)
Theorem when_the_writes_succeed current_time fresh announcement_id title message
    expiration_date username start_date st :
  ((exists r st',
      create_announcement current_time fresh title message expiration_date
        username start_date st = (Ok r, st'))
   <-> teacher_exists st username /\ date_accepted expiration_date
       /\ start_date_passes start_date
       /\ find_one fresh (announcements_collection st) = None)
  /\ ((exists r st',
         update_announcement current_time announcement_id title message
           expiration_date username start_date st = (Ok r, st'))
      <-> teacher_exists st username
          /\ (exists o old, ObjectId announcement_id = Some o
                /\ find_one o (announcements_collection st) = Some old)
          /\ date_accepted expiration_date /\ start_date_passes start_date)
  /\ ((exists r st',
         delete_announcement announcement_id username st = (Ok r, st'))
      <-> teacher_exists st username
          /\ (exists o old, ObjectId announcement_id = Some o
                /\ find_one o (announcements_collection st) = Some old)).
Proof.
  split; [|split]; split.
  - intros (r & st' & Hrun). by eapply create_announcement_inv.
  - intros (Ht & He & Hs & Hfresh). rewrite create_announcement_ok by done. eauto.
  - intros (r & st' & Hrun). by eapply update_announcement_inv.
  - intros (Ht & (o & old & Ho & Hold) & He & Hs).
    rewrite (update_announcement_ok _ _ _ _ _ _ _ _ o old) by done. eauto.
  - intros (r & st' & Hrun). revert Hrun.
    outcomes_of_delete; use_outcome; try done.
    intros _. split; [done|]. eexists _, _. split; [done|].
    match goal with Hd : announcements_collection st = _ |- _ => rewrite Hd end.
    rewrite find_one_app_None by done. by apply find_one_here.
  - intros (Ht & (o & old & Ho & Hold)).
    destruct (find_one_Some _ _ _ Hold) as (c1 & c2 & Hc & Hid & Hc1).
    rewrite (delete_announcement_ok _ _ _ o c1 old c2) by done. eauto.
Qed.

(** X15. The window in which a record is listed has no gaps: a record that
    list-active returns at two times is returned at every time in between
    (times compared as the store compares them). *)
Theorem listed_window_has_no_gaps t1 t2 t3 st :
  at_or_before t1 t2 -> at_or_before t2 t3 ->
  exists l1 l2 l3,
    get_active_announcements t1 st = (Ok l1, st)
    /\ get_active_announcements t2 st = (Ok l2, st)
    /\ get_active_announcements t3 st = (Ok l3, st)
    /\ forall r, In r l1 -> In r l3 -> In r l2.
Proof.
  unfold at_or_before. intros H12 H23. eexists _, _, _.
  split; [apply get_active_announcements_run|].
  split; [apply get_active_announcements_run|].
  split; [apply get_active_announcements_run|].
  intros r (d1 & Hr1 & Hd1)%in_map_iff (d3 & Hr3 & Hd3)%in_map_iff.
  apply In_sort_desc, In_find in Hd1 as [Hin1 Hact1].
  apply In_sort_desc, In_find in Hd3 as [Hin3 Hact3].
  apply matches_active_query in Hact1 as [_ Hstart].
  apply matches_active_query in Hact3 as [(e & He & Hafter) _].
  rewrite <- Hr1. apply in_map, In_sort_desc, In_find. split; [done|].
  apply matches_active_query. split.
  - exists e. split.
    + rewrite <- (to_json_lookup d1) by done. rewrite Hr1, <- Hr3.
      by rewrite to_json_lookup.
    + unfold at_or_after in *. by eapply string_leb_trans.
  - destruct Hstart as [?|[?|(s & Hs & Hbefore)]]; [by left|by right; left|].
    right. right. exists s. split; [done|].
    unfold at_or_before in *. by eapply string_leb_trans.
Qed.

(** X16. A write touches one record only: after create, update or delete,
    whatever the outcome, a lookup by any id other than the one written
    returns what it returned before. *)
Theorem other_records_are_untouched current_time fresh announcement_id title
    message expiration_date username start_date st o k :
  ObjectId announcement_id = Some o ->
  (k <> fresh ->
     find_one k (announcements_collection
       (create_announcement current_time fresh title message expiration_date
          username start_date st).2)
     = find_one k (announcements_collection st))
  /\ (k <> o ->
       find_one k (announcements_collection
         (update_announcement current_time announcement_id title message
            expiration_date username start_date st).2)
       = find_one k (announcements_collection st))
  /\ (k <> o ->
       find_one k (announcements_collection
         (delete_announcement announcement_id username st).2)
       = find_one k (announcements_collection st)).
Proof.
  intros Ho. split; [|split]; intros Hk.
  - outcomes_of_create; use_outcome; simpl; try done.
    by apply find_one_snoc_ne.
  - outcomes_of_update; use_outcome; simpl; try done.
    simplify_eq. by apply find_one_update_one_ne.
  - outcomes_of_delete; use_outcome; simpl; try done.
    simplify_eq.
    match goal with Hd : announcements_collection st = _ |- _ => rewrite Hd end.
    match goal with Hne : k <> ?y |- _ =>
      rewrite <- (find_one_delete_one_ne k y (_ ++ _ :: _)) by done
    end.
    by rewrite delete_one_app.
Qed.

(** X17. Ownership is not checked: any two usernames with a teacher record
    get the same answer and the same store from delete and from list-all,
    and update by one succeeds exactly when update by the other would. *)
Theorem any_teacher_acts_alike current_time announcement_id title message
    expiration_date start_date st u1 u2 :
  teacher_exists st u1 -> teacher_exists st u2 ->
  delete_announcement announcement_id u1 st
  = delete_announcement announcement_id u2 st
  /\ get_all_announcements u1 st = get_all_announcements u2 st
  /\ ((exists r st',
         update_announcement current_time announcement_id title message
           expiration_date u1 start_date st = (Ok r, st'))
      <-> (exists r st',
             update_announcement current_time announcement_id title message
               expiration_date u2 start_date st = (Ok r, st'))).
Proof.
  intros H1 H2. split; [|split].
  - unfold delete_announcement, bind. by rewrite !verify_teacher_known.
  - by rewrite !get_all_announcements_run.
  - split; intros (r & st' & Hrun);
      destruct (update_announcement_inv _ _ _ _ _ _ _ _ _ _ Hrun)
        as (_ & (o & old & Ho & Hold) & He & Hs);
      rewrite (update_announcement_ok _ _ _ _ _ _ _ _ o old) by done; eauto.
Qed.

(** X18. create does not compare the two dates. When a create succeeds
    with a start date that sorts after the expiration date as a string (the
    order the handlers compare dates in), the record it stores is returned
    by list-active at no time at all. *)
Theorem inverted_window_is_never_listed current_time fresh title message
    expiration_date username s st r st1 now :
  create_announcement current_time fresh title message expiration_date username
    (Some s) st = (Ok r, st1) ->
  before expiration_date s ->
  exists l, get_active_announcements now st1 = (Ok l, st1) /\ ~ In r l.
Proof.
  intros Hrun Hinv.
  destruct (create_announcement_inv _ _ _ _ _ _ _ _ _ _ Hrun)
    as (Ht & He & Hs & Hfresh).
  rewrite create_announcement_ok in Hrun by done.
  injection Hrun as <- <-.
  eexists. split; [apply get_active_announcements_run|].
  intros (d & Hr & Hd)%in_map_iff.
  apply In_sort_desc, In_find in Hd as [_ Hact].
  apply matches_active_query in Hact as [(e & He' & Hafter) Hstart].
  rewrite <- (to_json_lookup d) in He', Hstart by done.
  rewrite Hr, to_json_lookup in He', Hstart by done.
  simpl in He', Hstart. injection He' as <-.
  destruct Hstart as [?|[?|(s' & [= <-] & Hbefore)]]; try done.
  apply (before_not_at_or_after expiration_date s Hinv).
  unfold at_or_after, at_or_before in *. by eapply string_leb_trans.
Qed.

End Extras.

(** X14. The Z-normalisation replaces every Z, not only a trailing one: its
    result holds no Z, so normalising twice is normalising once. *)
Theorem normal_form_has_no_Z s :
  Z_free (replace_Z s) = true /\ replace_Z (replace_Z s) = replace_Z s.
Proof.
  split; [apply Z_free_replace_Z|]. apply replace_Z_free, Z_free_replace_Z.
Qed.

(** * The handlers on a concrete store

    Each property above, run on [Sample.school] with the concrete driver. *)

#[local] Existing Instance Sample.driver.

Lemma teacher1_exists : teacher_exists Sample.school "teacher1".
Proof. exists Sample.teacher1. split; [left; reflexivity|reflexivity]. Defined.

Lemma nobody_unknown : ~ teacher_exists Sample.school "nobody".
Proof. intros (t & [<-|[]] & Hid). discriminate Hid. Defined.

Lemma school_unique_ids : unique_ids (announcements_collection Sample.school).
Proof.
  unfold unique_ids. simpl.
  apply NoDup_cons_2; [|apply NoDup_singleton].
  intros Hin. apply list_elem_of_In in Hin. destruct Hin as [Heq|[]]. discriminate Heq.
Defined.

(** C1. list-active is to return a record exactly when its expiration
    date is at or after the current time (and it has started). The handler
    compares the stored date strings with [utcnow().isoformat()] bytewise,
    so it returns records whose expiration date, as an instant, is already
    past. The exam of the specification's example, expiring
    [2099-01-01T00:00:00Z], is still returned half a second later; and a
    record created with the expiration date [2026-03-01T12:00:00+05:00],
    which is 07:00 UTC, is returned at 10:00 UTC. *)
Theorem list_active_lists_expired_records :
  (In Sample.exam (announcements_collection Sample.school)
   /\ (exists l,
         get_active_announcements "2099-01-01T00:00:00.500000" Sample.school
         = (Ok l, Sample.school)
         /\ In (to_json Sample.exam) l)
   /\ body Sample.exam !! "expiration_date" = Some (VStr "2099-01-01T00:00:00Z")
   /\ instant "2099-01-01T00:00:00Z" = Some 4070908800000000%Z
   /\ instant "2099-01-01T00:00:00.500000" = Some 4070908800500000%Z
   /\ ~ active "2099-01-01T00:00:00.500000" (body Sample.exam))
  /\ (exists r st1 l,
        create_announcement "2026-03-01T06:00:00" 3%N "Trip" "Museum"
          "2026-03-01T12:00:00+05:00" "teacher1" None Sample.school
        = (Ok r, st1)
        /\ get_active_announcements "2026-03-01T10:00:00" st1 = (Ok l, st1)
        /\ In r l
        /\ r !! "expiration_date" = Some (VStr "2026-03-01T12:00:00+05:00")
        /\ instant "2026-03-01T12:00:00+05:00" = Some 1772348400000000%Z
        /\ instant "2026-03-01T10:00:00" = Some 1772359200000000%Z
        /\ ~ active "2026-03-01T10:00:00" r).
Proof.
  split.
  - split; [left; reflexivity|].
    split.
    { eexists. split; [apply get_active_announcements_run|].
      apply in_map, In_sort_desc, In_find.
      split; [left; reflexivity|vm_compute; reflexivity]. }
    split; [vm_compute; reflexivity|].
    split; [vm_compute; reflexivity|].
    split; [vm_compute; reflexivity|].
    intros [(e & He & Hle) _]. vm_compute in He. injection He as <-.
    vm_compute in Hle. by apply Hle.
  - eexists _, _, _.
    split.
    { apply (create_announcement_ok (H:=Sample.driver)).
      - exact teacher1_exists.
      - vm_compute; reflexivity.
      - intros Htr; discriminate Htr.
      - vm_compute; reflexivity. }
    split; [apply get_active_announcements_run|].
    split.
    { apply in_map, In_sort_desc, In_find.
      split; [right; right; left; reflexivity|vm_compute; reflexivity]. }
    split; [vm_compute; reflexivity|].
    split; [vm_compute; reflexivity|].
    split; [vm_compute; reflexivity|].
    intros [(e & He & Hle) _]. vm_compute in He. injection He as <-.
    vm_compute in Hle. by apply Hle.
Qed.


Lemma username_decides_authorization_witness :
  create_announcement "2026-03-01T12:00:00" 3%N "Exam" "Final exam Friday"
    "2099-01-01T00:00:00Z" "nobody" None Sample.school
  = (Raise Unauthorized, Sample.school).
Proof.
  exact (proj1 (proj2 (proj1
    (username_decides_authorization Sample.school "nobody" "2026-03-01T12:00:00"
       3%N Sample.exam_id "Exam" "Final exam Friday" "2099-01-01T00:00:00Z" None)
    nobody_unknown))).
Defined.

Lemma malformed_id_is_bad_request_witness :
  delete_announcement "not-an-id" "teacher1" Sample.school
  = (Raise InvalidId, Sample.school).
Proof.
  refine (proj2 (proj1
    (malformed_id_is_bad_request Sample.school "teacher1" "2026-03-01T12:00:00"
       "not-an-id" "Exam" "Final exam Friday" "2099-01-01T00:00:00Z" None
       teacher1_exists) _)).
  reflexivity.
Defined.

(** C2 as stated fails: a teacher's update and delete with the id
    ["not-an-id"], which is no object id, are answered 400 ("Invalid
    announcement ID"), not the 404 that a well-formed id matching no record
    gets. *)
Lemma malformed_id_is_not_answered_not_found :
  ObjectId "not-an-id" = None
  /\ status_of
       (update_announcement "2026-03-01T12:00:00" "not-an-id" "Exam"
          "Final exam Friday" "2099-01-01T00:00:00Z" "teacher1" None
          Sample.school).1 = 400%Z
  /\ status_of (delete_announcement "not-an-id" "teacher1" Sample.school).1
     = 400%Z
  /\ status_of
       (delete_announcement "000000000000000000000009" "teacher1"
          Sample.school).1 = 404%Z.
Proof.
  split; [vm_compute; reflexivity|].
  split; [vm_compute; reflexivity|].
  split; vm_compute; reflexivity.
Qed.

Lemma create_rejects_unparsable_dates_witness :
  exists detail,
    create_announcement "2026-03-01T12:00:00" 3%N "Exam" "Final exam Friday"
      "not-a-date" "teacher1" None Sample.school
    = (Raise (HTTPException 400 detail), Sample.school).
Proof.
  apply create_rejects_unparsable_dates; [exact teacher1_exists|].
  left. vm_compute; reflexivity.
Defined.

(** C4 as stated fails: the start date [""] is supplied and does not
    parse, yet a teacher's create is answered 200 and the store grows from
    two announcements to three. (And with an unknown username an unparsable
    expiration date is answered 401, not 400.) *)
Lemma create_persists_with_empty_start_date :
  fromisoformat (replace_Z "") = false
  /\ status_of
       (create_announcement "2026-03-01T12:00:00" 3%N "Exam" "Final exam Friday"
          "2099-01-01T00:00:00Z" "teacher1" (Some "") Sample.school).1 = 200%Z
  /\ length (announcements_collection
               (create_announcement "2026-03-01T12:00:00" 3%N "Exam"
                  "Final exam Friday" "2099-01-01T00:00:00Z" "teacher1" (Some "")
                  Sample.school).2) = 3
  /\ length (announcements_collection Sample.school) = 2
  /\ status_of
       (create_announcement "2026-03-01T12:00:00" 3%N "Exam" "Final exam Friday"
          "not-a-date" "nobody" None Sample.school).1 = 401%Z.
Proof.
  split; [vm_compute; reflexivity|].
  split; [vm_compute; reflexivity|].
  split; [vm_compute; reflexivity|].
  split; vm_compute; reflexivity.
Qed.

(** The example of the specification: create by ["teacher1"] with an
    expiration date ending in Z and no start date. *)
Lemma create_returns_persisted_record_witness :
  exists r st' d,
    create_announcement "2026-03-01T12:00:00" 3%N "Exam" "Final exam Friday"
      "2099-01-01T00:00:00Z" "teacher1" None Sample.school = (Ok r, st')
    /\ r = to_json d
    /\ r !! "id" = Some (VStr (oid_str (_id d))) /\ oid_str (_id d) <> ""
    /\ r !! "created_by" = Some (VStr "teacher1")
    /\ r !! "start_date" = Some VNull.
Proof.
  assert (Hrun := create_announcement_ok "2026-03-01T12:00:00" 3%N "Exam"
    "Final exam Friday" "2099-01-01T00:00:00Z" "teacher1" None Sample.school
    teacher1_exists).
  specialize (Hrun ltac:(vm_compute; reflexivity)).
  specialize (Hrun ltac:(intros Htr; discriminate Htr)).
  specialize (Hrun ltac:(vm_compute; reflexivity)).
  destruct (create_returns_persisted_record _ _ _ _ _ _ _ _ _ _ Hrun)
    as (d & _ & _ & _ & Hr & _ & Hid & Hne & Hby & _ & _ & _ & _ & _ & Hstart).
  eexists _, _, d. split; [exact Hrun|]. auto.
Defined.

Lemma update_replaces_and_stamps_witness :
  exists r st',
    update_announcement "2026-03-01T12:00:00" Sample.exam_id "Exam moved"
      "Final exam Monday" "2099-01-04T00:00:00Z" "teacher1" None Sample.school
    = (Ok r, st')
    /\ r !! "title" = Some (VStr "Exam moved")
    /\ r !! "updated_by" = Some (VStr "teacher1")
    /\ r !! "start_date" = Some VNull.
Proof.
  assert (Hrun := update_announcement_ok "2026-03-01T12:00:00" Sample.exam_id
    "Exam moved" "Final exam Monday" "2099-01-04T00:00:00Z" "teacher1" None
    Sample.school 1%N Sample.exam teacher1_exists).
  specialize (Hrun ltac:(vm_compute; reflexivity)).
  specialize (Hrun ltac:(vm_compute; reflexivity)).
  specialize (Hrun ltac:(vm_compute; reflexivity)).
  specialize (Hrun ltac:(intros Htr; discriminate Htr)).
  destruct (update_replaces_and_stamps _ _ _ _ _ _ _ _ _ _ Hrun)
    as (o & old & new & c1 & c2 & _ & _ & _ & _ & _ & _ & _ & _ & _ & _
        & (_ & _ & Htitle & _ & Hnone & _ & _ & Hby & _)).
  eexists _, _. split; [exact Hrun|]. auto.
Defined.

Lemma delete_removes_one_then_not_found_witness :
  exists c1 c2,
    announcements_collection Sample.school = c1 ++ Sample.exam :: c2
    /\ delete_announcement Sample.exam_id "teacher1" Sample.school
       = (Ok deleted, Db (c1 ++ c2) (teachers_collection Sample.school))
    /\ delete_announcement Sample.exam_id "teacher1"
         (Db (c1 ++ c2) (teachers_collection Sample.school))
       = (Raise NotFound, Db (c1 ++ c2) (teachers_collection Sample.school)).
Proof.
  apply (delete_removes_one_then_not_found Sample.exam_id "teacher1"
           Sample.school 1%N Sample.exam).
  - exact teacher1_exists.
  - vm_compute; reflexivity.
  - exact school_unique_ids.
  - left. reflexivity.
  - reflexivity.
Defined.

Lemma trailing_Z_is_accepted_witness :
  validate_date "2099-01-01T00:00:00Z" "Invalid expiration date format"
    Sample.school = (Ok tt, Sample.school).
Proof.
  apply (trailing_Z_is_accepted "2099-01-01T00:00:00").
  - vm_compute; reflexivity.
  - vm_compute; reflexivity.
Defined.

Lemma empty_start_date_skips_validation_witness :
  exists r d,
    create_announcement "2026-03-01T12:00:00" 3%N "Exam" "Final exam Friday"
      "2099-01-01T00:00:00Z" "teacher1" (Some "") Sample.school
    = (Ok r, Db (announcements_collection Sample.school ++ [d])
                (teachers_collection Sample.school))
    /\ body d !! "start_date" = Some (VStr "")
    /\ body d !! "start_date" <> Some VNull
    /\ r !! "start_date" = Some (VStr "").
Proof.
  apply (empty_start_date_skips_validation "2026-03-01T12:00:00" "Exam"
           "Final exam Friday" "2099-01-01T00:00:00Z" "teacher1" Sample.school).
  - exact teacher1_exists.
  - vm_compute; reflexivity.
  - vm_compute; reflexivity.
Defined.

(** ** The further properties on the concrete store *)

(** The create of the specification's example, and an update of the exam. *)
Lemma school_create :
  create_announcement "2026-03-01T12:00:00" 3%N "Exam" "Final exam Friday"
    "2099-01-01T00:00:00Z" "teacher1" None Sample.school
  = (Ok (to_json (Doc 3%N (announcement "2026-03-01T12:00:00" "Exam"
                             "Final exam Friday" "2099-01-01T00:00:00Z"
                             "teacher1" None))),
     Db (announcements_collection Sample.school
           ++ [Doc 3%N (announcement "2026-03-01T12:00:00" "Exam"
                          "Final exam Friday" "2099-01-01T00:00:00Z"
                          "teacher1" None)])
        (teachers_collection Sample.school)).
Proof.
  apply (create_announcement_ok (H:=Sample.driver)).
  - exact teacher1_exists.
  - vm_compute; reflexivity.
  - intros Htr; discriminate Htr.
  - vm_compute; reflexivity.
Defined.

Lemma school_update :
  update_announcement "2026-03-01T12:00:00" Sample.exam_id "Exam moved"
    "Final exam Monday" "2099-01-04T00:00:00Z" "teacher1" None Sample.school
  = (Ok (to_json (set_fields (update_data "2026-03-01T12:00:00" "Exam moved"
                                "Final exam Monday" "2099-01-04T00:00:00Z"
                                "teacher1" None) Sample.exam)),
     Db (update_one 1%N (update_data "2026-03-01T12:00:00" "Exam moved"
                           "Final exam Monday" "2099-01-04T00:00:00Z"
                           "teacher1" None)
           (announcements_collection Sample.school))
        (teachers_collection Sample.school)).
Proof.
  apply (update_announcement_ok (H:=Sample.driver)).
  - exact teacher1_exists.
  - vm_compute; reflexivity.
  - vm_compute; reflexivity.
  - vm_compute; reflexivity.
  - intros Htr; discriminate Htr.
Defined.

Lemma school_delete_missing :
  delete_announcement "000000000000000000000009" "teacher1" Sample.school
  = (Raise NotFound, Sample.school).
Proof.
  apply (delete_announcement_missing (H:=Sample.driver) _ _ _ 9%N).
  - exact teacher1_exists.
  - vm_compute; reflexivity.
  - vm_compute; reflexivity.
Defined.

Lemma failed_call_changes_nothing_witness :
  (delete_announcement "000000000000000000000009" "teacher1" Sample.school).2
  = Sample.school.
Proof.
  apply (proj2 (proj2 (proj2
    (failed_call_changes_nothing (H:=Sample.driver) "2026-03-01T12:00:00" 3%N
       "000000000000000000000009" "Exam" "Final exam Friday"
       "2099-01-01T00:00:00Z" "teacher1" None Sample.school))) NotFound).
  rewrite school_delete_missing. reflexivity.
Defined.

Lemma handlers_keep_ids_unique_witness :
  unique_ids (announcements_collection
    (delete_announcement Sample.exam_id "teacher1" Sample.school).2).
Proof.
  exact (proj2 (proj2
    (handlers_keep_ids_unique (H:=Sample.driver) "2026-03-01T12:00:00" 3%N Sample.exam_id "Exam"
       "Final exam Friday" "2099-01-01T00:00:00Z" "teacher1" None Sample.school
       school_unique_ids))).
Defined.

Lemma statuses_of_the_handlers_witness :
  status_of
    (create_announcement "2026-03-01T12:00:00" 1%N "Exam" "Final exam Friday"
       "2099-01-01T00:00:00Z" "teacher1" None Sample.school).1 = 500%Z
  /\ is_Some (find_one 1%N (announcements_collection Sample.school)).
Proof.
  assert (Hs : status_of
    (create_announcement "2026-03-01T12:00:00" 1%N "Exam" "Final exam Friday"
       "2099-01-01T00:00:00Z" "teacher1" None Sample.school).1 = 500%Z)
    by (vm_compute; reflexivity).
  split; [exact Hs|].
  exact (proj1 (proj2 (proj2 (proj2
    (statuses_of_the_handlers (H:=Sample.driver) "2026-03-01T12:00:00" 1%N Sample.exam_id "Exam"
       "Final exam Friday" "2099-01-01T00:00:00Z" "teacher1" None
       Sample.school)))) Hs).
Defined.

Lemma list_all_returns_every_record_witness :
  exists ds,
    get_all_announcements "teacher1" Sample.school
    = (Ok (map to_json ds), Sample.school)
    /\ Permutation ds (announcements_collection Sample.school)
    /\ length (map to_json ds) = length (announcements_collection Sample.school).
Proof.
  exact (list_all_returns_every_record (H:=Sample.driver) "teacher1" Sample.school teacher1_exists).
Defined.

Lemma active_records_are_among_all_witness :
  exists la ll,
    get_active_announcements "2026-03-01T12:00:00" Sample.school
    = (Ok la, Sample.school)
    /\ get_all_announcements "teacher1" Sample.school = (Ok ll, Sample.school)
    /\ (forall r, In r la -> In r ll)
    /\ length la <= length ll.
Proof.
  exact (active_records_are_among_all (H:=Sample.driver) "2026-03-01T12:00:00" "teacher1"
           Sample.school teacher1_exists).
Defined.

Lemma responses_carry_id_not_raw_id_witness :
  carries_id
    (to_json (Doc 3%N (announcement "2026-03-01T12:00:00" "Exam"
                         "Final exam Friday" "2099-01-01T00:00:00Z"
                         "teacher1" None))).
Proof.
  exact (proj1 (proj2 (proj2
    (responses_carry_id_not_raw_id (H:=Sample.driver) "2026-03-01T12:00:00" 3%N Sample.exam_id
       "Exam" "Final exam Friday" "2099-01-01T00:00:00Z" "teacher1" None
       Sample.school))) _ _ school_create).
Defined.

Lemma date_errors_name_the_field_witness :
  create_announcement "2026-03-01T12:00:00" 3%N "Exam" "Final exam Friday"
    "not-a-date" "teacher1" (Some "also-not-a-date") Sample.school
  = (Raise (HTTPException 400 "Invalid expiration date format"), Sample.school).
Proof.
  apply (date_errors_name_the_field (H:=Sample.driver) "2026-03-01T12:00:00" 3%N "Exam"
           "Final exam Friday" "not-a-date" "teacher1" (Some "also-not-a-date")
           Sample.school teacher1_exists).
  vm_compute; reflexivity.
Defined.

Lemma update_twice_is_update_once_witness :
  update_announcement "2026-03-01T12:00:00" Sample.exam_id "Exam moved"
    "Final exam Monday" "2099-01-04T00:00:00Z" "teacher1" None
    (Db (update_one 1%N (update_data "2026-03-01T12:00:00" "Exam moved"
                           "Final exam Monday" "2099-01-04T00:00:00Z"
                           "teacher1" None)
           (announcements_collection Sample.school))
        (teachers_collection Sample.school))
  = (Ok (to_json (set_fields (update_data "2026-03-01T12:00:00" "Exam moved"
                                "Final exam Monday" "2099-01-04T00:00:00Z"
                                "teacher1" None) Sample.exam)),
     Db (update_one 1%N (update_data "2026-03-01T12:00:00" "Exam moved"
                           "Final exam Monday" "2099-01-04T00:00:00Z"
                           "teacher1" None)
           (announcements_collection Sample.school))
        (teachers_collection Sample.school)).
Proof.
  exact (update_twice_is_update_once (H:=Sample.driver) _ _ _ _ _ _ _ _ _ _ school_update).
Defined.

Lemma create_then_delete_restores_witness :
  exists i,
    to_json (Doc 3%N (announcement "2026-03-01T12:00:00" "Exam"
                        "Final exam Friday" "2099-01-01T00:00:00Z"
                        "teacher1" None)) !! "id" = Some (VStr i)
    /\ delete_announcement i "teacher1"
         (Db (announcements_collection Sample.school
                ++ [Doc 3%N (announcement "2026-03-01T12:00:00" "Exam"
                               "Final exam Friday" "2099-01-01T00:00:00Z"
                               "teacher1" None)])
             (teachers_collection Sample.school))
       = (Ok deleted, Sample.school).
Proof.
  apply (create_then_delete_restores (H:=Sample.driver) _ _ _ _ _ _ _ _ _ _ school_create).
  vm_compute; reflexivity.
Defined.

Lemma created_record_is_listed_witness :
  exists l,
    get_active_announcements "2026-06-01T00:00:00"
      (Db (announcements_collection Sample.school
             ++ [Doc 3%N (announcement "2026-03-01T12:00:00" "Exam"
                            "Final exam Friday" "2099-01-01T00:00:00Z"
                            "teacher1" None)])
          (teachers_collection Sample.school))
    = (Ok l,
       Db (announcements_collection Sample.school
             ++ [Doc 3%N (announcement "2026-03-01T12:00:00" "Exam"
                            "Final exam Friday" "2099-01-01T00:00:00Z"
                            "teacher1" None)])
          (teachers_collection Sample.school))
    /\ In (to_json (Doc 3%N (announcement "2026-03-01T12:00:00" "Exam"
                               "Final exam Friday" "2099-01-01T00:00:00Z"
                               "teacher1" None))) l.
Proof.
  apply (created_record_is_listed (H:=Sample.driver) _ _ _ _ _ _ _ _ _ _ "2026-06-01T00:00:00"
           school_create).
  - vm_compute; reflexivity.
  - intros s Hs; discriminate Hs.
Defined.

Lemma when_the_writes_succeed_witness :
  exists r st',
    delete_announcement Sample.exam_id "teacher1" Sample.school = (Ok r, st').
Proof.
  apply (proj2 (proj2 (proj2
    (when_the_writes_succeed (H:=Sample.driver) "2026-03-01T12:00:00" 3%N Sample.exam_id "Exam"
       "Final exam Friday" "2099-01-01T00:00:00Z" "teacher1" None
       Sample.school)))).
  split; [exact teacher1_exists|].
  exists 1%N, Sample.exam. split; vm_compute; reflexivity.
Defined.

Lemma listed_window_has_no_gaps_witness :
  exists l1 l2 l3,
    get_active_announcements "2026-03-01T06:00:00" Sample.school
    = (Ok l1, Sample.school)
    /\ get_active_announcements "2026-03-01T12:00:00" Sample.school
       = (Ok l2, Sample.school)
    /\ get_active_announcements "2026-03-01T18:00:00" Sample.school
       = (Ok l3, Sample.school)
    /\ forall r, In r l1 -> In r l3 -> In r l2.
Proof.
  apply (listed_window_has_no_gaps (H:=Sample.driver)); vm_compute; reflexivity.
Defined.

Lemma other_records_are_untouched_witness :
  find_one 2%N (announcements_collection
    (delete_announcement Sample.exam_id "teacher1" Sample.school).2)
  = find_one 2%N (announcements_collection Sample.school).
Proof.
  refine (proj2 (proj2
    (other_records_are_untouched (H:=Sample.driver) "2026-03-01T12:00:00" 3%N Sample.exam_id "Exam"
       "Final exam Friday" "2099-01-01T00:00:00Z" "teacher1" None Sample.school
       1%N 2%N _)) _).
  - vm_compute; reflexivity.
  - intros Heq; discriminate Heq.
Defined.

Lemma any_teacher_acts_alike_witness :
  delete_announcement Sample.exam_id "teacher1" Sample.staffroom
  = delete_announcement Sample.exam_id "teacher2" Sample.staffroom.
Proof.
  refine (proj1
    (any_teacher_acts_alike (H:=Sample.driver) "2026-03-01T12:00:00" Sample.exam_id "Exam"
       "Final exam Friday" "2099-01-01T00:00:00Z" None Sample.staffroom
       "teacher1" "teacher2" _ _)).
  - exists Sample.teacher1. split; [left; reflexivity|reflexivity].
  - exists Sample.teacher2. split; [right; left; reflexivity|reflexivity].
Defined.

Lemma school_create_inverted :
  create_announcement "2026-03-01T12:00:00" 3%N "Trip" "Museum"
    "2026-03-02T00:00:00" "teacher1" (Some "2026-03-05T00:00:00") Sample.school
  = (Ok (to_json (Doc 3%N (announcement "2026-03-01T12:00:00" "Trip" "Museum"
                             "2026-03-02T00:00:00" "teacher1"
                             (Some "2026-03-05T00:00:00")))),
     Db (announcements_collection Sample.school
           ++ [Doc 3%N (announcement "2026-03-01T12:00:00" "Trip" "Museum"
                          "2026-03-02T00:00:00" "teacher1"
                          (Some "2026-03-05T00:00:00"))])
        (teachers_collection Sample.school)).
Proof.
  apply (create_announcement_ok (H:=Sample.driver)).
  - exact teacher1_exists.
  - vm_compute; reflexivity.
  - intros _; vm_compute; reflexivity.
  - vm_compute; reflexivity.
Defined.

Lemma inverted_window_is_never_listed_witness :
  exists l,
    get_active_announcements "2026-03-03T00:00:00"
      (Db (announcements_collection Sample.school
             ++ [Doc 3%N (announcement "2026-03-01T12:00:00" "Trip" "Museum"
                            "2026-03-02T00:00:00" "teacher1"
                            (Some "2026-03-05T00:00:00"))])
          (teachers_collection Sample.school))
    = (Ok l,
       Db (announcements_collection Sample.school
             ++ [Doc 3%N (announcement "2026-03-01T12:00:00" "Trip" "Museum"
                            "2026-03-02T00:00:00" "teacher1"
                            (Some "2026-03-05T00:00:00"))])
          (teachers_collection Sample.school))
    /\ ~ In (to_json (Doc 3%N (announcement "2026-03-01T12:00:00" "Trip" "Museum"
                                 "2026-03-02T00:00:00" "teacher1"
                                 (Some "2026-03-05T00:00:00")))) l.
Proof.
  apply (inverted_window_is_never_listed (H:=Sample.driver) _ _ _ _ _ _ _ _ _ _
           "2026-03-03T00:00:00" school_create_inverted).
  vm_compute; reflexivity.
Defined.
